(** * Network monitor: measurement cycle, aggregation and report cycle

    A shallow embedding of [network_monitor.py].  Python floats are
    idealised as exact rationals ([Q]); the external collaborators (speed
    test provider, IP lookup, SQL store, file system, SMTP transport) are
    fields of an explicit world that every operation threads through a
    small state-and-exception monad. *)

From Stdlib Require Import Ascii String QArith Qround Qabs DecimalString.
From stdpp Require Import gmap strings list sorting.

Open Scope string_scope.

(** ** Python text formatting *)

Module Py.

(** [str(n)] for an [int]. *)
Definition str_of_Z (n : Z) : string := NilZero.string_of_int (Z.to_int n).

(** ["%02d"]. *)
Definition pad2 (n : Z) : string :=
  if (n <? 10)%Z then "0" +:+ str_of_Z n else str_of_Z n.

(** ["%04d"]. *)
Definition pad4 (n : Z) : string :=
  if (n <? 10)%Z then "000" +:+ str_of_Z n
  else if (n <? 100)%Z then "00" +:+ str_of_Z n
  else if (n <? 1000)%Z then "0" +:+ str_of_Z n
  else str_of_Z n.

(** [x < y] on numbers. *)
Definition Qltb (x y : Q) : bool :=
  match (x ?= y)%Q with Lt => true | _ => false end.

(** Rounding to the nearest integer, ties to even, as the correctly
    rounded decimal conversion of [format] does. *)
Definition round_half_even (q : Q) : Z :=
  let f := Qfloor q in
  match ((q - inject_Z f) ?= (1 # 2))%Q with
  | Lt => f
  | Gt => (f + 1)%Z
  | Eq => if Z.even f then f else (f + 1)%Z
  end.

(** [f"{x:.2f}"]. *)
Definition fmt2 (x : Q) : string :=
  let n := round_half_even (Qabs x * inject_Z 100) in
  (if Qltb x 0 then "-" else "")
    +:+ str_of_Z (n / 100) +:+ "." +:+ pad2 (n mod 100).

(** Whitespace as [str.strip] sees it, on the ASCII range. *)
Definition is_space (c : ascii) : bool :=
  let n := nat_of_ascii c in
  ((9 <=? n) && (n <=? 13) || (28 <=? n) && (n <=? 32))%nat.

Fixpoint lstrip (s : string) : string :=
  match s with
  | String c s' => if is_space c then lstrip s' else s
  | EmptyString => EmptyString
  end.

Fixpoint rstrip (s : string) : string :=
  match s with
  | String c s' =>
      match rstrip s' with
      | EmptyString => if is_space c then EmptyString else String c EmptyString
      | t => String c t
      end
  | EmptyString => EmptyString
  end.

(** [s.strip()]. *)
Definition strip (s : string) : string := rstrip (lstrip s).

End Py.

(** ** [datetime.datetime] values (naive, whole seconds) *)

Module DateTime.

Record datetime := mk_datetime {
  year : Z; month : Z; day : Z; hour : Z; minute : Z; second : Z
}.

(** Days since 1970-01-01 of a proleptic Gregorian date. *)
Definition days_from_civil (y m d : Z) : Z :=
  let y' := if (m <=? 2)%Z then (y - 1)%Z else y in
  let era := (y' / 400)%Z in
  let yoe := (y' - era * 400)%Z in
  let mp := if (2 <? m)%Z then (m - 3)%Z else (m + 9)%Z in
  let doy := ((153 * mp + 2) / 5 + d - 1)%Z in
  let doe := (yoe * 365 + yoe / 4 - yoe / 100 + doy)%Z in
  (era * 146097 + doe - 719468)%Z.

Definition civil_from_days (z0 : Z) : Z * Z * Z :=
  let z := (z0 + 719468)%Z in
  let era := (z / 146097)%Z in
  let doe := (z - era * 146097)%Z in
  let yoe := ((doe - doe / 1460 + doe / 36524 - doe / 146096) / 365)%Z in
  let doy := (doe - (365 * yoe + yoe / 4 - yoe / 100))%Z in
  let mp := ((5 * doy + 2) / 153)%Z in
  let d := (doy - (153 * mp + 2) / 5 + 1)%Z in
  let m := if (mp <? 10)%Z then (mp + 3)%Z else (mp - 9)%Z in
  let y := (yoe + era * 400)%Z in
  (if (m <=? 2)%Z then (y + 1)%Z else y, m, d).

(** Seconds since the epoch. *)
Definition to_seconds (t : datetime) : Z :=
  (days_from_civil (year t) (month t) (day t) * 86400
   + hour t * 3600 + minute t * 60 + second t)%Z.

Definition of_seconds (s : Z) : datetime :=
  let days := (s / 86400)%Z in
  let rem := (s mod 86400)%Z in
  let '(y, m, d) := civil_from_days days in
  mk_datetime y m d (rem / 3600) ((rem mod 3600) / 60) (rem mod 60).

(** [t - datetime.timedelta(hours=h)]. *)
Definition sub_hours (t : datetime) (h : Z) : datetime :=
  of_seconds (to_seconds t - h * 3600).

(** [t.strftime('%Y-%m-%d %H:%M:%S')]. *)
Definition strftime_iso (t : datetime) : string :=
  Py.pad4 (year t) +:+ "-" +:+ Py.pad2 (month t) +:+ "-" +:+ Py.pad2 (day t)
    +:+ " " +:+ Py.pad2 (hour t) +:+ ":" +:+ Py.pad2 (minute t)
    +:+ ":" +:+ Py.pad2 (second t).

(** [t.strftime('%m/%d/%Y, %I:%M:%S %p')]. *)
Definition strftime_us (t : datetime) : string :=
  let h12 := if (hour t mod 12 =? 0)%Z then 12%Z else (hour t mod 12)%Z in
  Py.pad2 (month t) +:+ "/" +:+ Py.pad2 (day t) +:+ "/" +:+ Py.pad4 (year t)
    +:+ ", " +:+ Py.pad2 h12 +:+ ":" +:+ Py.pad2 (minute t)
    +:+ ":" +:+ Py.pad2 (second t)
    +:+ " " +:+ (if (hour t <? 12)%Z then "AM" else "PM").

End DateTime.

Import DateTime.

(** ** Exceptions, log events and the world *)

Inductive exn := Exception (msg : string).

(** [str(e)]. *)
Definition exn_str (e : exn) : string := let 'Exception m := e in m.

Inductive result (A : Type) := Ok (a : A) | Raise (e : exn).
Arguments Ok {A} a.
Arguments Raise {A} e.

Inductive level := INFO | WARNING | ERROR.

Record log_event := LogEvent { lv : level; text : string }.

Definition level_eqb (a b : level) : bool :=
  match a, b with
  | INFO, INFO | WARNING, WARNING | ERROR, ERROR => true
  | _, _ => false
  end.

(** Number of events of one level in a list of events. *)
Definition count_level (l : level) (evs : list log_event) : nat :=
  length (List.filter (fun e => level_eqb (lv e) l) evs).

(** Module-level configuration read from the environment at import. *)
Record Config := {
  SMTP_USER : string;
  EMAIL_RECIPIENT : string;
  DOWNLOAD_THRESHOLD : Q;
  UPLOAD_THRESHOLD : Q
}.

(** A row of [network_checks] as a [DictCursor] returns it. *)
Record Row := mk_Row {
  id : Z;
  timestamp : datetime;
  download_speed : Q;
  upload_speed : Q;
  latency : Q;
  ip_address : string
}.

(** Values of the summary dict: formatted strings and integer counts. *)
Inductive sval := SStr (s : string) | SInt (n : Z).

(** [str(value)], as an f-string renders a summary value. *)
Definition sval_str (v : sval) : string :=
  match v with SStr s => s | SInt n => Py.str_of_Z n end.

(** Cells of a raw export row: text or number. *)
Inductive cell := CStr (s : string) | CNum (q : Q).

(** The dict returned by [get_report_data].  The summary keeps the
    insertion order of its keys, which [items()] iterates. *)
Record ReportData := mk_ReportData {
  summary : list (string * sval);
  incidents : list (list string);
  raw_data : list (list cell)
}.

(** Flowables handed to [SimpleDocTemplate.build].  A table is its cell
    data; the [TableStyle] commands change no content and are left out. *)
Inductive flowable :=
| Paragraph (txt : string) (style : string)
| Spacer (w h : Z)
| Table (data : list (list string)).

Inductive file_content :=
| PdfFile (elements : list flowable)
| CsvFile (rows : list (list cell)).

Inductive mime_part :=
| MIMEText (body : string)
| MIMEApplication (payload : file_content) (subtype filename : string).

Record Message := mk_Message {
  msg_subject : string;
  msg_from : string;
  msg_to : string;
  msg_parts : list mime_part
}.

(** How the external collaborators answer.  Each field is the outcome of
    one call: a value, or the exception the call raises. *)
Record Env := {
  st_init : result unit;          (* speedtest.Speedtest() *)
  st_get_best_server : result unit;
  st_download : result Q;         (* bits per second *)
  st_upload : result Q;
  st_ping : Q;                    (* st.results.ping *)
  ip_get : result string;         (* requests.get(...).text *)
  db_connect : result unit;       (* host parsing and psycopg2.connect *)
  db_insert : result unit;        (* INSERT and commit *)
  db_select : result unit;        (* SELECT and fetchall *)
  pdf_build : result unit;        (* doc.build *)
  csv_open : result unit;         (* open(filename, 'w') and the writes *)
  fs_remove : string -> result unit;
  smtp_connect : result unit;
  smtp_starttls : result unit;
  smtp_login : result unit;
  smtp_send : result unit
}.

(** The calls made to the collaborators, as a mock would record them. *)
Inductive ext_call :=
| CSpeedtest | CGetBestServer | CDownload | CUpload
| CRequestsGet
| CDbConnect | CDbInsert | CDbSelect
| CPdfBuild (filename : string) | CCsvOpen (filename : string)
| COsRemove (filename : string)
| CSmtp | CStarttls | CLogin | CSendMessage.

Record World := mk_World {
  env : Env;
  clock : datetime;               (* NOW() and datetime.now() *)
  log : list log_event;           (* oldest first *)
  rows : list Row;                (* the network_checks table *)
  files : gmap string file_content;
  outbox : list Message;          (* messages the transport accepted *)
  calls : list ext_call           (* oldest first *)
}.

Definition set_log (f : list log_event -> list log_event) (w : World) : World :=
  mk_World (env w) (clock w) (f (log w)) (rows w) (files w) (outbox w) (calls w).
Definition set_rows (f : list Row -> list Row) (w : World) : World :=
  mk_World (env w) (clock w) (log w) (f (rows w)) (files w) (outbox w) (calls w).
Definition set_files (f : gmap string file_content -> gmap string file_content)
    (w : World) : World :=
  mk_World (env w) (clock w) (log w) (rows w) (f (files w)) (outbox w) (calls w).
Definition set_outbox (f : list Message -> list Message) (w : World) : World :=
  mk_World (env w) (clock w) (log w) (rows w) (files w) (f (outbox w)) (calls w).
Definition set_calls (f : list ext_call -> list ext_call) (w : World) : World :=
  mk_World (env w) (clock w) (log w) (rows w) (files w) (outbox w) (f (calls w)).

(** Events logged, and calls made, between two worlds. *)
Definition new_events (w w' : World) : list log_event :=
  drop (length (log w)) (log w').
Definition new_calls (w w' : World) : list ext_call :=
  drop (length (calls w)) (calls w').

(** ** The monad: state of the world, and exceptions *)

Definition M (A : Type) : Type := World -> result A * World.

Definition ret {A} (a : A) : M A := fun w => (Ok a, w).

Definition bind {A B} (m : M A) (k : A -> M B) : M B :=
  fun w =>
    match m w with
    | (Ok a, w') => k a w'
    | (Raise e, w') => (Raise e, w')
    end.

Definition raise {A} (e : exn) : M A := fun w => (Raise e, w).

(** [try: body  except Exception as e: handler e]. *)
Definition try_except {A} (body : M A) (handler : exn -> M A) : M A :=
  fun w =>
    match body w with
    | (Ok a, w') => (Ok a, w')
    | (Raise e, w') => handler e w'
    end.

Notation "x <- c1 ;; c2" := (bind c1 (fun x => c2))
  (at level 100, c1 at next level, right associativity).
Notation "c1 ;; c2" := (bind c1 (fun _ => c2))
  (at level 100, right associativity).

(** One call to an external collaborator: it is recorded, then answered. *)
Definition call {A} (c : ext_call) (f : Env -> result A) : M A :=
  fun w => (f (env w), set_calls (fun cs => (cs ++ [c])%list) w).

Definition get {A} (f : World -> A) : M A := fun w => (Ok (f w), w).

Definition modify (f : World -> World) : M unit := fun w => (Ok tt, f w).

(** [logging.info], [logging.warning], [logging.error]. *)
Definition logging (l : level) (msg : string) : M unit :=
  modify (set_log (fun evs => (evs ++ [LogEvent l msg])%list)).

(** ** The operations of [network_monitor.py] *)

(** [sum(xs)] over numbers: from 0, left to right. *)
Definition py_sum (xs : list Q) : Q := fold_left Qplus xs 0%Q.

(** [sum(1 for x in xs if p x)]. *)
Definition py_count (p : Q -> bool) (xs : list Q) : Z :=
  fold_left Z.add (map (fun _ => 1%Z) (List.filter p xs)) 0%Z.

(** [sum(xs) / len(xs)]. *)
Definition py_mean (xs : list Q) : Q :=
  (py_sum xs / inject_Z (Z.of_nat (length xs)))%Q.

Definition nl : string := String (ascii_of_nat 10) EmptyString.

(** The server-generated [SERIAL] key. *)
Definition next_id (rs : list Row) : Z :=
  (1 + fold_right Z.max 0 (map id rs))%Z.

(** [timestamp >= NOW() - interval hours hour]. *)
Definition in_window (now : datetime) (hours : Z) (r : Row) : bool :=
  (to_seconds now - hours * 3600 <=? to_seconds (timestamp r))%Z.

(** [ORDER BY timestamp DESC]. *)
Definition newer_first (a b : Row) : Prop :=
  (to_seconds (timestamp b) <= to_seconds (timestamp a))%Z.

#[global] Instance newer_first_dec a b : Decision (newer_first a b).
Proof. unfold newer_first. apply _. Defined.

Section Monitor.

Variable cfg : Config.

(** [perform_speed_test]: the triple of measurements, or three [None]. *)
Definition perform_speed_test : M (option Q * option Q * option Q) :=
  try_except
    (call CSpeedtest st_init ;;
     call CGetBestServer st_get_best_server ;;
     d <- call CDownload st_download ;;
     let download_speed := (d / inject_Z 1000000)%Q in
     u <- call CUpload st_upload ;;
     let upload_speed := (u / inject_Z 1000000)%Q in
     latency <- get (fun w => st_ping (env w)) ;;
     ret (Some download_speed, Some upload_speed, Some latency))
    (fun e =>
       logging ERROR ("Speed test error: " +:+ exn_str e) ;;
       ret (None, None, None)).

(** [get_public_ip]. *)
Definition get_public_ip : M (option string) :=
  try_except
    (t <- call CRequestsGet ip_get ;; ret (Some (Py.strip t)))
    (fun e =>
       logging ERROR ("IP address check error: " +:+ exn_str e) ;;
       ret None).

(** [save_check_results].  Closing the cursor and the connection in the
    [finally] block leaves the world unchanged. *)
Definition save_check_results (download_speed upload_speed latency : Q)
    (ip_address : string) : M unit :=
  try_except
    (call CDbConnect db_connect ;;
     call CDbInsert db_insert ;;
     now <- get clock ;;
     modify (set_rows (fun rs =>
       (rs ++ [mk_Row (next_id rs) now download_speed upload_speed latency
                 ip_address])%list)) ;;
     logging INFO "Results saved to database successfully")
    (fun e => logging ERROR ("Database save error: " +:+ exn_str e)).

(** The flowables [generate_pdf_report] hands to [doc.build]. *)
Definition pdf_elements (data : ReportData) (start_time end_time : datetime)
    : list flowable :=
  let elements := [Paragraph "Network Monitoring Report" "Title"; Spacer 1 12] in
  let period_text :=
    "Report Period: " +:+ strftime_us start_time +:+ " - "
      +:+ strftime_us end_time in
  let elements := (elements ++ [Paragraph period_text "Normal"; Spacer 1 12])%list in
  let elements := (elements ++ [Paragraph "Summary:" "Heading2"])%list in
  let elements :=
    fold_left
      (fun els kv =>
         (els ++ [Paragraph ("• " +:+ fst kv +:+ ": " +:+ sval_str (snd kv))
                    "Normal"])%list)
      (summary data) elements in
  let elements := (elements ++ [Spacer 1 12])%list in
  match incidents data with
  | [] => elements
  | _ :: _ =>
      let elements := (elements ++ [Paragraph "Speed Incidents:" "Heading2"])%list in
      let table_data := [["Timestamp"; "Download Speed"; "Upload Speed"]] in
      let table_data := (table_data ++ incidents data)%list in
      (elements ++ [Table table_data])%list
  end.

(** [generate_pdf_report]: build the elements and write the document. *)
Definition generate_pdf_report (data : ReportData)
    (start_time end_time : datetime) (filename : string) : M unit :=
  let elements := pdf_elements data start_time end_time in
  call (CPdfBuild filename) pdf_build ;;
  modify (set_files (fun fs => <[filename := PdfFile elements]> fs)).

(** [generate_csv_report]. *)
Definition generate_csv_report (data : list (list cell)) (filename : string)
    : M unit :=
  call (CCsvOpen filename) csv_open ;;
  let header :=
    [CStr "Timestamp"; CStr "Download Speed (Mbps)"; CStr "Upload Speed (Mbps)";
     CStr "Latency (ms)"; CStr "IP Address"] in
  modify (set_files (fun fs =>
    <[filename := CsvFile (fold_left (fun out row => (out ++ [row])%list)
                             data [header])]> fs)).

(** The cursor's answer to the windowed [SELECT]. *)
Definition fetchall (hours : Z) : M (list Row) :=
  call CDbSelect db_select ;;
  now <- get clock ;;
  rs <- get rows ;;
  ret (merge_sort newer_first (List.filter (in_window now hours) rs)).

(** The body of [get_report_data] from [if not results] to the returned
    dict. *)
Definition report_of_results (results : list Row) : option ReportData :=
  match results with
  | [] => None
  | _ :: _ =>
      let download_speeds := map download_speed results in
      let upload_speeds := map upload_speed results in
      let latencies := map latency results in
      let ip_addresses : gset string := list_to_set (map ip_address results) in
      let summary :=
        [("Average Download Speed",
           SStr (Py.fmt2 (py_mean download_speeds) +:+ " Mbps"));
         ("Average Upload Speed",
           SStr (Py.fmt2 (py_mean upload_speeds) +:+ " Mbps"));
         ("Average Latency", SStr (Py.fmt2 (py_mean latencies) +:+ " ms"));
         ("IP Changes",
           SStr (if decide (1 < size ip_addresses)%nat then "Yes" else "No"));
         ("Slow Download Incidents",
           SInt (py_count (fun speed => Py.Qltb speed (DOWNLOAD_THRESHOLD cfg))
                   download_speeds));
         ("Slow Upload Incidents",
           SInt (py_count (fun speed => Py.Qltb speed (UPLOAD_THRESHOLD cfg))
                   upload_speeds))] in
      let incidents :=
        fold_left
          (fun incidents r =>
             if Py.Qltb (download_speed r) (DOWNLOAD_THRESHOLD cfg)
                || Py.Qltb (upload_speed r) (UPLOAD_THRESHOLD cfg)
             then
               (incidents ++
                [[strftime_iso (timestamp r);
                  if Py.Qltb (download_speed r) (DOWNLOAD_THRESHOLD cfg)
                  then Py.fmt2 (download_speed r) +:+ " Mbps" else "OK";
                  if Py.Qltb (upload_speed r) (UPLOAD_THRESHOLD cfg)
                  then Py.fmt2 (upload_speed r) +:+ " Mbps" else "OK"]])%list
             else incidents)
          results [] in
      Some (mk_ReportData summary incidents
              (map (fun r =>
                      [CStr (strftime_iso (timestamp r));
                       CNum (download_speed r);
                       CNum (upload_speed r);
                       CNum (latency r);
                       CStr (ip_address r)]) results))
  end.

(** [get_report_data]. *)
Definition get_report_data (hours : Z) : M (option ReportData) :=
  try_except
    (call CDbConnect db_connect ;;
     results <- fetchall hours ;;
     ret (report_of_results results))
    (fun e =>
       logging ERROR ("Error getting report data: " +:+ exn_str e) ;;
       ret None).

(** [open(filename, 'rb').read()]. *)
Definition read_file (filename : string) : M file_content :=
  fs <- get files ;;
  match fs !! filename with
  | Some c => ret c
  | None => raise (Exception ("No such file or directory: " +:+ filename))
  end.

(** [os.remove(filename)]. *)
Definition os_remove (filename : string) : M unit :=
  fs <- get files ;;
  match fs !! filename with
  | Some _ =>
      call (COsRemove filename) (fun e => fs_remove e filename) ;;
      modify (set_files (fun fs => delete filename fs))
  | None => raise (Exception ("No such file or directory: " +:+ filename))
  end.

(** The [with smtplib.SMTP(...) as server] block. *)
Definition smtp_session (msg : Message) : M unit :=
  call CSmtp smtp_connect ;;
  call CStarttls smtp_starttls ;;
  call CLogin smtp_login ;;
  call CSendMessage smtp_send ;;
  modify (set_outbox (fun out => (out ++ [msg])%list)).

(** [send_email_report]. *)
Definition send_email_report (hours : Z) : M unit :=
  try_except
    (end_time <- get clock ;;
     let start_time := sub_hours end_time hours in
     data <- get_report_data hours ;;
     match data with
     | None =>
         logging WARNING
           ("No data available for the past " +:+ Py.str_of_Z hours +:+ " hours")
     | Some data =>
         let pdf_filename := "network_report_" +:+ Py.str_of_Z hours +:+ "h.pdf" in
         let csv_filename := "network_data_" +:+ Py.str_of_Z hours +:+ "h.csv" in
         generate_pdf_report data start_time end_time pdf_filename ;;
         generate_csv_report (raw_data data) csv_filename ;;
         let body :=
           "Network Monitoring Report" +:+ nl +:+
           "Report Period: " +:+ strftime_us start_time +:+ " - "
             +:+ strftime_us end_time +:+ nl +:+ nl +:+
           "Summary:" +:+ nl in
         let body :=
           fold_left
             (fun body kv =>
                body +:+ "• " +:+ fst kv +:+ ": " +:+ sval_str (snd kv) +:+ nl)
             (summary data) body in
         let parts := [MIMEText body] in
         pdf <- read_file pdf_filename ;;
         let parts := (parts ++ [MIMEApplication pdf "pdf" pdf_filename])%list in
         csv <- read_file csv_filename ;;
         let parts := (parts ++ [MIMEApplication csv "csv" csv_filename])%list in
         smtp_session
           (mk_Message "Network Monitoring Report" (SMTP_USER cfg)
              (EMAIL_RECIPIENT cfg) parts) ;;
         logging INFO
           ("Email report sent successfully for past " +:+ Py.str_of_Z hours
              +:+ " hours") ;;
         os_remove pdf_filename ;;
         os_remove csv_filename
     end)
    (fun e => logging ERROR ("Error sending email report: " +:+ exn_str e)).

(** What [perform_network_check] does with the four measurements. *)
Definition check_measurements (download_speed upload_speed latency : option Q)
    (ip_address : option string) : M unit :=
  match download_speed, upload_speed, latency, ip_address with
  | Some download_speed, Some upload_speed, Some latency, Some ip_address =>
      save_check_results download_speed upload_speed latency ip_address ;;
      logging INFO
        ("Network check completed - Download: " +:+ Py.fmt2 download_speed
           +:+ " Mbps, Upload: " +:+ Py.fmt2 upload_speed
           +:+ " Mbps, Latency: " +:+ Py.fmt2 latency +:+ " ms")
  | _, _, _, _ =>
      logging ERROR "Network check failed - some measurements were not available"
  end.

(** [perform_network_check]. *)
Definition perform_network_check : M unit :=
  speeds <- perform_speed_test ;;
  let '(download_speed, upload_speed, latency) := speeds in
  ip_address <- get_public_ip ;;
  check_measurements download_speed upload_speed latency ip_address.

End Monitor.

(** ** Sample configurations and worlds *)

Module Samples.

Definition cfg0 : Config :=
  {| SMTP_USER := "monitor@example.org";
     EMAIL_RECIPIENT := "ops@example.org";
     DOWNLOAD_THRESHOLD := inject_Z 500;
     UPLOAD_THRESHOLD := inject_Z 300 |}.

(** Every collaborator answers; the provider measures 100 and 50 Mbps. *)
Definition env_ok : Env :=
  {| st_init := Ok tt;
     st_get_best_server := Ok tt;
     st_download := Ok (inject_Z 100000000);
     st_upload := Ok (inject_Z 50000000);
     st_ping := inject_Z 20;
     ip_get := Ok ("1.2.3.4" +:+ nl);
     db_connect := Ok tt;
     db_insert := Ok tt;
     db_select := Ok tt;
     pdf_build := Ok tt;
     csv_open := Ok tt;
     fs_remove := fun _ => Ok tt;
     smtp_connect := Ok tt;
     smtp_starttls := Ok tt;
     smtp_login := Ok tt;
     smtp_send := Ok tt |}.

(** The store cannot be reached. *)
Definition env_db_down : Env :=
  {| st_init := Ok tt;
     st_get_best_server := Ok tt;
     st_download := Ok (inject_Z 100000000);
     st_upload := Ok (inject_Z 50000000);
     st_ping := inject_Z 20;
     ip_get := Ok ("1.2.3.4" +:+ nl);
     db_connect := Raise (Exception "connection refused");
     db_insert := Ok tt;
     db_select := Ok tt;
     pdf_build := Ok tt;
     csv_open := Ok tt;
     fs_remove := fun _ => Ok tt;
     smtp_connect := Ok tt;
     smtp_starttls := Ok tt;
     smtp_login := Ok tt;
     smtp_send := Ok tt |}.

(** The transport refuses the message. *)
Definition env_smtp_down : Env :=
  {| st_init := Ok tt;
     st_get_best_server := Ok tt;
     st_download := Ok (inject_Z 100000000);
     st_upload := Ok (inject_Z 50000000);
     st_ping := inject_Z 20;
     ip_get := Ok ("1.2.3.4" +:+ nl);
     db_connect := Ok tt;
     db_insert := Ok tt;
     db_select := Ok tt;
     pdf_build := Ok tt;
     csv_open := Ok tt;
     fs_remove := fun _ => Ok tt;
     smtp_connect := Ok tt;
     smtp_starttls := Ok tt;
     smtp_login := Ok tt;
     smtp_send := Raise (Exception "SMTP error") |}.

(** Removing a file is refused. *)
Definition env_remove_denied : Env :=
  {| st_init := Ok tt;
     st_get_best_server := Ok tt;
     st_download := Ok (inject_Z 100000000);
     st_upload := Ok (inject_Z 50000000);
     st_ping := inject_Z 20;
     ip_get := Ok ("1.2.3.4" +:+ nl);
     db_connect := Ok tt;
     db_insert := Ok tt;
     db_select := Ok tt;
     pdf_build := Ok tt;
     csv_open := Ok tt;
     fs_remove := fun _ => Raise (Exception "Permission denied");
     smtp_connect := Ok tt;
     smtp_starttls := Ok tt;
     smtp_login := Ok tt;
     smtp_send := Ok tt |}.

Definition noon : datetime := mk_datetime 2024 3 5 15 0 0.

Definition row1 : Row :=
  mk_Row 1 (mk_datetime 2024 3 5 14 30 0) (inject_Z 100) (inject_Z 50)
    (inject_Z 20) "1.2.3.4".

Definition row2 : Row :=
  mk_Row 2 (mk_datetime 2024 3 5 14 45 0) (inject_Z 600) (inject_Z 400)
    (inject_Z 15) "1.2.3.4".

Definition row3 : Row :=
  mk_Row 3 (mk_datetime 2024 3 5 14 50 0) (inject_Z 600) (inject_Z 250)
    (inject_Z 15) "5.6.7.8".

Definition world_of (e : Env) (rs : list Row) : World :=
  mk_World e noon [] rs ∅ [] [].

(** The report data of the test fixture: nothing slow, no incident. *)
Definition quiet_report : ReportData :=
  mk_ReportData
    [("Average Download Speed", SStr "100.00 Mbps");
     ("Average Upload Speed", SStr "50.00 Mbps");
     ("Average Latency", SStr "20.00 ms");
     ("IP Changes", SStr "No");
     ("Slow Download Incidents", SInt 0);
     ("Slow Upload Incidents", SInt 0)]
    []
    [[CStr "2024-03-05 15:00:00"; CNum (inject_Z 100); CNum (inject_Z 50);
      CNum (inject_Z 20); CStr "1.2.3.4"]].

(** The same window under the default thresholds: one incident. *)
Definition incident_report : ReportData :=
  mk_ReportData
    [("Average Download Speed", SStr "100.00 Mbps");
     ("Average Upload Speed", SStr "50.00 Mbps");
     ("Average Latency", SStr "20.00 ms");
     ("IP Changes", SStr "No");
     ("Slow Download Incidents", SInt 1);
     ("Slow Upload Incidents", SInt 1)]
    [["2024-03-05 15:00:00"; "100.00 Mbps"; "50.00 Mbps"]]
    [[CStr "2024-03-05 15:00:00"; CNum (inject_Z 100); CNum (inject_Z 50);
      CNum (inject_Z 20); CStr "1.2.3.4"]].


End Samples.

(** ** Reading results: dict lookup, means, counts *)

(** [d[k]] on a dict kept as an association list. *)
Fixpoint dict_get (k : string) (d : list (string * sval)) : option sval :=
  match d with
  | [] => None
  | (k', v) :: d' => if String.eqb k k' then Some v else dict_get k d'
  end.

#[global] Instance Qlt_dec (x y : Q) : Decision (x < y)%Q.
Proof.
  destruct (Qlt_le_dec x y) as [H | H]; [left; exact H | right].
  apply Qle_not_lt; exact H.
Defined.

(** [m] is the arithmetic mean of [xs]: [m * N = x1 + ... + xN]. *)
Definition is_mean (m : Q) (xs : list Q) : Prop :=
  (m * inject_Z (Z.of_nat (length xs)) == fold_right Qplus 0 xs)%Q.

(** A record breaches a threshold. *)
Definition breach (cfg : Config) (r : Row) : Prop :=
  (download_speed r < DOWNLOAD_THRESHOLD cfg)%Q
  \/ (upload_speed r < UPLOAD_THRESHOLD cfg)%Q.

#[global] Instance breach_dec (cfg : Config) (r : Row) : Decision (breach cfg r).
Proof. unfold breach. apply _. Defined.


(** The event that closes a check cycle over four present measurements. *)
Definition check_completed (d u l : Q) : log_event :=
  LogEvent INFO
    ("Network check completed - Download: " +:+ Py.fmt2 d
       +:+ " Mbps, Upload: " +:+ Py.fmt2 u
       +:+ " Mbps, Latency: " +:+ Py.fmt2 l +:+ " ms").

(** The rows the windowed query answers with. *)
Definition window_rows (hours : Z) (w : World) : list Row :=
  merge_sort newer_first (List.filter (in_window (clock w) hours) (rows w)).

(** The store fails a windowed query with exception [e]. *)
Definition query_fails (en : Env) (e : exn) : Prop :=
  db_connect en = Raise e
  \/ (db_connect en = Ok tt /\ db_select en = Raise e).

(** A call to the store. *)
Definition store_call (c : ext_call) : Prop :=
  c = CDbConnect \/ c = CDbSelect.

(** The transport raises [e] at one of its four steps. *)
Definition smtp_raises (en : Env) (e : exn) : Prop :=
  smtp_connect en = Raise e
  \/ (smtp_connect en = Ok tt /\ smtp_starttls en = Raise e)
  \/ (smtp_connect en = Ok tt /\ smtp_starttls en = Ok tt
      /\ smtp_login en = Raise e)
  \/ (smtp_connect en = Ok tt /\ smtp_starttls en = Ok tt
      /\ smtp_login en = Ok tt /\ smtp_send en = Raise e).

(** One summary line of the document. *)
Definition summary_line (kv : string * sval) : flowable :=
  Paragraph ("• " +:+ fst kv +:+ ": " +:+ sval_str (snd kv)) "Normal".

(** The tables of a document. *)
Definition tables (els : list flowable) : list (list (list string)) :=
  omap (fun f => match f with Table d => Some d | _ => None end) els.

(** The display of a speed against its threshold. *)
Definition display (v threshold : Q) : string :=
  if decide (v < threshold)%Q then Py.fmt2 v +:+ " Mbps" else "OK".

Definition incident_row (cfg : Config) (r : Row) : list string :=
  [strftime_iso (timestamp r);
   display (download_speed r) (DOWNLOAD_THRESHOLD cfg);
   display (upload_speed r) (UPLOAD_THRESHOLD cfg)].

(** ** Further vocabulary for the properties *)

(** The export row of a record. *)
Definition raw_row (r : Row) : list cell :=
  [CStr (strftime_iso (timestamp r));
   CNum (download_speed r);
   CNum (upload_speed r);
   CNum (latency r);
   CStr (ip_address r)].

(** The header row of the export. *)
Definition csv_header : list cell :=
  [CStr "Timestamp"; CStr "Download Speed (Mbps)"; CStr "Upload Speed (Mbps)";
   CStr "Latency (ms)"; CStr "IP Address"].

(** The header row of the incidents table. *)
Definition incidents_header : list string :=
  ["Timestamp"; "Download Speed"; "Upload Speed"].

(** The exception of the first speed-test step that raises, if any. *)
Definition speedtest_failure (en : Env) : option exn :=
  match st_init en with
  | Raise e => Some e
  | Ok _ =>
      match st_get_best_server en with
      | Raise e => Some e
      | Ok _ =>
          match st_download en with
          | Raise e => Some e
          | Ok _ =>
              match st_upload en with
              | Raise e => Some e
              | Ok _ => None
              end
          end
      end
  end.

(** The error events of the two measurement wrappers, in order. *)
Definition measurement_errors (en : Env) : list log_event :=
  (match speedtest_failure en with
   | Some e => [LogEvent ERROR ("Speed test error: " +:+ exn_str e)]
   | None => []
   end
   ++ match ip_get en with
      | Raise e => [LogEvent ERROR ("IP address check error: " +:+ exn_str e)]
      | Ok _ => []
      end)%list.

(** A call that writes to or reads from the store. *)
Definition db_call (c : ext_call) : Prop :=
  c = CDbConnect \/ c = CDbInsert \/ c = CDbSelect.
(** ** Further sample worlds *)

Module Fixtures.

(** Neither the speed-test provider nor the IP service can be reached. *)
Definition env_offline : Env :=
  {| st_init := Ok tt;
     st_get_best_server := Raise (Exception "no route to host");
     st_download := Ok (inject_Z 100000000);
     st_upload := Ok (inject_Z 50000000);
     st_ping := inject_Z 20;
     ip_get := Raise (Exception "Connection error");
     db_connect := Ok tt;
     db_insert := Ok tt;
     db_select := Ok tt;
     pdf_build := Ok tt;
     csv_open := Ok tt;
     fs_remove := fun _ => Ok tt;
     smtp_connect := Ok tt;
     smtp_starttls := Ok tt;
     smtp_login := Ok tt;
     smtp_send := Ok tt |}.

(** The export file cannot be opened for writing. *)
Definition env_disk_full : Env :=
  {| st_init := Ok tt;
     st_get_best_server := Ok tt;
     st_download := Ok (inject_Z 100000000);
     st_upload := Ok (inject_Z 50000000);
     st_ping := inject_Z 20;
     ip_get := Ok ("1.2.3.4" +:+ nl);
     db_connect := Ok tt;
     db_insert := Ok tt;
     db_select := Ok tt;
     pdf_build := Ok tt;
     csv_open := Raise (Exception "No space left on device");
     fs_remove := fun _ => Ok tt;
     smtp_connect := Ok tt;
     smtp_starttls := Ok tt;
     smtp_login := Ok tt;
     smtp_send := Ok tt |}.

End Fixtures.

(** The names of the two attachment files of a report over [hours] hours. *)
Definition pdf_name (hours : Z) : string :=
  "network_report_" +:+ Py.str_of_Z hours +:+ "h.pdf".
Definition csv_name (hours : Z) : string :=
  "network_data_" +:+ Py.str_of_Z hours +:+ "h.csv".

(** The summary lines of the message body. *)
Definition summary_text (kvs : list (string * sval)) : string :=
  foldr (fun kv acc =>
           "• " +:+ fst kv +:+ ": " +:+ sval_str (snd kv) +:+ nl +:+ acc)
    "" kvs.

(** The message a report cycle hands to the transport. *)
Definition report_message (cfg : Config) (data : ReportData)
    (start_time end_time : datetime) (hours : Z) : Message :=
  mk_Message "Network Monitoring Report" (SMTP_USER cfg) (EMAIL_RECIPIENT cfg)
    [MIMEText
       ("Network Monitoring Report" +:+ nl +:+
        "Report Period: " +:+ strftime_us start_time +:+ " - "
          +:+ strftime_us end_time +:+ nl +:+ nl +:+
        "Summary:" +:+ nl +:+ summary_text (summary data));
     MIMEApplication (PdfFile (pdf_elements data start_time end_time))
       "pdf" (pdf_name hours);
     MIMEApplication (CsvFile (csv_header :: raw_data data))
       "csv" (csv_name hours)].

(** The event that closes a report cycle whose message has left. *)
Definition report_sent (hours : Z) : log_event :=
  LogEvent INFO
    ("Email report sent successfully for past " +:+ Py.str_of_Z hours
       +:+ " hours").

(** A call to the transport. *)
Definition smtp_call (c : ext_call) : Prop :=
  c = CSmtp \/ c = CStarttls \/ c = CLogin \/ c = CSendMessage.

(** Every step of the transport answers. *)
Definition smtp_accepts (en : Env) : Prop :=
  smtp_connect en = Ok tt /\ smtp_starttls en = Ok tt
  /\ smtp_login en = Ok tt /\ smtp_send en = Ok tt.

(** An operation keeps a relation between the world before and after,
    whatever it returns or raises. *)
Definition preserves {A} (R : World -> World -> Prop) (m : M A) : Prop :=
  forall w r w', m w = (r, w') -> R w w'.

(** What a report cycle over [hours] hours leaves alone: the collaborators,
    the clock, the store, and every file but its two attachments. *)
Definition report_frame (hours : Z) (w w' : World) : Prop :=
  env w' = env w /\ clock w' = clock w /\ rows w' = rows w
  /\ forall f, f <> pdf_name hours -> f <> csv_name hours ->
       files w' !! f = files w !! f.

(** ** Start-up: required variables, the host setting, the schema *)

Module Startup.

(** [os.getenv(var)] over the process environment. *)
Definition os_getenv (environ : gmap string string) (var : string)
    : option string :=
  environ !! var.

(** The truth value of [os.getenv(var)]: set, and not the empty string. *)
Definition truthy (v : option string) : bool :=
  match v with
  | Some (String _ _) => true
  | _ => false
  end.

Definition required_vars : list string :=
  ["DB_USER"; "DB_PASSWORD"; "SMTP_USER"; "SMTP_PASSWORD"; "EMAIL_RECIPIENT"].

(** [sep.join(xs)]. *)
Fixpoint join (sep : string) (xs : list string) : string :=
  match xs with
  | [] => ""
  | [x] => x
  | x :: rest => x +:+ sep +:+ join sep rest
  end.

(** [[var for var in required_vars if not os.getenv(var)]]. *)
Definition missing_vars (environ : gmap string string) : list string :=
  List.filter (fun var => negb (truthy (os_getenv environ var))) required_vars.

(** The validation of the required environment variables. *)
Definition check_required_vars (environ : gmap string string) : result unit :=
  match missing_vars environ with
  | [] => Ok tt
  | missing =>
      Raise (Exception ("Missing required environment variables: "
                          +:+ join ", " missing))
  end.

(** [c in s]. *)
Fixpoint contains (c : ascii) (s : string) : bool :=
  match s with
  | EmptyString => false
  | String a s' => if Ascii.eqb a c then true else contains c s'
  end.

(** [s.split(sep)] for a one-character separator. *)
Fixpoint split_on (sep : ascii) (s : string) : list string :=
  match s with
  | EmptyString => [EmptyString]
  | String a s' =>
      if Ascii.eqb a sep then EmptyString :: split_on sep s'
      else match split_on sep s' with
           | piece :: pieces => String a piece :: pieces
           | [] => [String a EmptyString]
           end
  end.

(** Occurrences of a character. *)
Fixpoint count_char (c : ascii) (s : string) : nat :=
  match s with
  | EmptyString => 0
  | String a s' => (if Ascii.eqb a c then 1 else 0) + count_char c s'
  end.

Definition colon : ascii := ascii_of_nat 58.

Section HostPort.

(** The builtin [int] on strings. *)
Variable py_int : string -> result Z.

(** The host and port the three store operations read from [DB_HOST]. *)
Definition parse_db_host (DB_HOST : string) : result (string * Z) :=
  if contains colon DB_HOST then
    match split_on colon DB_HOST with
    | [host; port] =>
        match py_int port with
        | Ok port => Ok (host, port)
        | Raise e => Raise e
        end
    | _ => Raise (Exception "too many values to unpack (expected 2)")
    end
  else Ok (DB_HOST, 5432%Z).

End HostPort.

(** The database server as [init_db] sees it: the databases, the tables
    (by database), and the connections that are open. *)
Record Server := mk_Server {
  databases : gset string;
  db_tables : gset (string * string);
  open_conns : gset nat;
  next_conn : nat;
  server_log : list log_event
}.

(** How the server answers each step of [init_db]. *)
Record ServerEnv := {
  pg_connect : string -> Z -> string -> result unit;  (* host, port, database *)
  pg_select : result unit;            (* SELECT 1 FROM pg_database ... *)
  pg_create_database : result unit;
  pg_create_table : result unit;      (* CREATE TABLE IF NOT EXISTS ... *)
  pg_commit : result unit
}.

(** The local variables [conn] and [cur], bound or not. *)
Record Locals := mk_Locals { conn : option nat; cur : option nat }.

Definition IM (A : Type) : Type := Server * Locals -> result A * (Server * Locals).

Definition iret {A} (a : A) : IM A := fun s => (Ok a, s).

Definition ibind {A B} (m : IM A) (k : A -> IM B) : IM B :=
  fun s =>
    match m s with
    | (Ok a, s') => k a s'
    | (Raise e, s') => (Raise e, s')
    end.

Notation "x <~ c1 ;; c2" := (ibind c1 (fun x => c2))
  (at level 100, c1 at next level, right associativity).
Notation "c1 ;;; c2" := (ibind c1 (fun _ => c2))
  (at level 100, right associativity).

Definition ilift {A} (r : result A) : IM A := fun s => (r, s).

Definition ilog (l : level) (msg : string) : IM unit :=
  fun '(sv, lo) =>
    (Ok tt,
     (mk_Server (databases sv) (db_tables sv) (open_conns sv) (next_conn sv)
        (server_log sv ++ [LogEvent l msg])%list, lo)).

(** [conn = psycopg2.connect(...)]: a new connection is open and bound. *)
Definition connect (answer : result unit) : IM unit :=
  fun '(sv, lo) =>
    match answer with
    | Ok _ =>
        (Ok tt,
         (mk_Server (databases sv) (db_tables sv)
            ({[next_conn sv]} ∪ open_conns sv) (S (next_conn sv))
            (server_log sv),
          mk_Locals (Some (next_conn sv)) (cur lo)))
    | Raise e => (Raise e, (sv, lo))
    end.

(** [cur = conn.cursor()]. *)
Definition cursor : IM unit :=
  fun '(sv, lo) => (Ok tt, (sv, mk_Locals (conn lo) (conn lo))).

(** [conn.close()]: closing twice is harmless. *)
Definition close_conn : IM unit :=
  fun '(sv, lo) =>
    match conn lo with
    | Some c =>
        (Ok tt,
         (mk_Server (databases sv) (db_tables sv) (open_conns sv ∖ {[c]})
            (next_conn sv) (server_log sv), lo))
    | None => (Ok tt, (sv, lo))
    end.

Definition network_checks : string := "network_checks".

Section InitDb.

Variable py_int : string -> result Z.
Variable senv : ServerEnv.
Variables DB_HOST DB_NAME : string.

Definition init_db_body : IM unit :=
  hp <~ ilift (parse_db_host py_int DB_HOST) ;;
  let '(host, port) := hp in
  connect (pg_connect senv host port "postgres") ;;;
  cursor ;;;
  ilift (pg_select senv) ;;;
  found <~ (fun s => (Ok (bool_decide (DB_NAME ∈ databases (fst s))), s)) ;;
  (if found then iret tt
   else
     ilift (pg_create_database senv) ;;;
     (fun '(sv, lo) =>
        (Ok tt,
         (mk_Server ({[DB_NAME]} ∪ databases sv) (db_tables sv) (open_conns sv)
            (next_conn sv) (server_log sv), lo))) ;;;
     ilog INFO ("Database " +:+ DB_NAME +:+ " created successfully")) ;;;
  close_conn ;;;
  connect (pg_connect senv host port DB_NAME) ;;;
  cursor ;;;
  ilift (pg_create_table senv) ;;;
  ilift (pg_commit senv) ;;;
  (fun '(sv, lo) =>
     (Ok tt,
      (mk_Server (databases sv) ({[(DB_NAME, network_checks)]} ∪ db_tables sv)
         (open_conns sv) (next_conn sv) (server_log sv), lo))) ;;;
  ilog INFO "Database initialized successfully".

(** [init_db]: the body; on an exception one error event and the same
    exception again; in every case the [finally] block, which closes
    whatever [conn] is bound to. *)
Definition init_db (sv : Server) : result unit * Server :=
  let '(r, s1) := init_db_body (sv, mk_Locals None None) in
  let '(r, s2) :=
    match r with
    | Ok a => (Ok a, s1)
    | Raise e =>
        let '(_, s2) :=
          ilog ERROR ("Database initialization error: " +:+ exn_str e) s1 in
        (Raise e, s2)
    end in
  let '(_, s3) := close_conn s2 in
  (r, fst s3).

End InitDb.

End Startup.

(** Every step of [init_db] can go through on a server with these
    databases: the host parses, both connections are accepted, the lookup,
    the table creation and the commit answer, and the database is there or
    can be created. *)
Definition init_can_succeed (py_int : string -> result Z)
    (senv : Startup.ServerEnv) (DB_HOST DB_NAME : string)
    (dbs : gset string) : Prop :=
  exists host port,
    Startup.parse_db_host py_int DB_HOST = Ok (host, port)
    /\ Startup.pg_connect senv host port "postgres" = Ok tt
    /\ Startup.pg_select senv = Ok tt
    /\ (DB_NAME ∈ dbs \/ Startup.pg_create_database senv = Ok tt)
    /\ Startup.pg_connect senv host port DB_NAME = Ok tt
    /\ Startup.pg_create_table senv = Ok tt
    /\ Startup.pg_commit senv = Ok tt.

(** Connection handles not yet given out are not open. *)
Definition fresh_handles (sv : Startup.Server) : Prop :=
  forall c, c ∈ Startup.open_conns sv -> (c < Startup.next_conn sv)%nat.

(** Servers and answers used as examples. *)
Module ServerFixtures.

(** Every step answers. *)
Definition senv_ok : Startup.ServerEnv :=
  {| Startup.pg_connect := fun _ _ _ => Ok tt;
     Startup.pg_select := Ok tt;
     Startup.pg_create_database := Ok tt;
     Startup.pg_create_table := Ok tt;
     Startup.pg_commit := Ok tt |}.

(** The commit of the table fails. *)
Definition senv_commit_fails : Startup.ServerEnv :=
  {| Startup.pg_connect := fun _ _ _ => Ok tt;
     Startup.pg_select := Ok tt;
     Startup.pg_create_database := Ok tt;
     Startup.pg_create_table := Ok tt;
     Startup.pg_commit := Raise (Exception "commit failed") |}.

(** A new server: only the maintenance database, nothing open. *)
Definition fresh_server : Startup.Server :=
  Startup.mk_Server {["postgres"]} ∅ ∅ 0 [].

(** An [int] that knows one port. *)
Definition int_5433 (s : string) : result Z :=
  if String.eqb s "5433" then Ok 5433%Z
  else Raise (Exception "invalid literal for int() with base 10").

End ServerFixtures.

(** * Properties *)

(** ** Numbers and formatting *)

Lemma Qltb_lt (x y : Q) : Py.Qltb x y = true <-> (x < y)%Q.
Proof.
  unfold Py.Qltb. rewrite Qlt_alt.
  destruct (x ?= y)%Q; split; intros H; congruence.
Qed.

Lemma Qltb_decide (x y : Q) : Py.Qltb x y = bool_decide (x < y)%Q.
Proof.
  destruct (Py.Qltb x y) eqn:E.
  - symmetry. apply bool_decide_eq_true. apply Qltb_lt. exact E.
  - symmetry. apply bool_decide_eq_false. intros H.
    apply Qltb_lt in H. congruence.
Qed.

Lemma Qltb_ge (x y : Q) : ~ (x < y)%Q -> Py.Qltb x y = false.
Proof.
  intros H. destruct (Py.Qltb x y) eqn:E; [| reflexivity].
  apply Qltb_lt in E. contradiction.
Qed.

Lemma Qltb_comp (x y z : Q) : (x == y)%Q -> Py.Qltb x z = Py.Qltb y z.
Proof. intros H. unfold Py.Qltb. rewrite H. reflexivity. Qed.

Lemma round_half_even_comp (x y : Q) :
  (x == y)%Q -> Py.round_half_even x = Py.round_half_even y.
Proof.
  intros H. unfold Py.round_half_even.
  rewrite (Qfloor_comp x y H).
  assert (E : (x - inject_Z (Qfloor y) == y - inject_Z (Qfloor y))%Q)
    by (rewrite H; reflexivity).
  rewrite E. reflexivity.
Qed.

Lemma fmt2_comp (x y : Q) : (x == y)%Q -> Py.fmt2 x = Py.fmt2 y.
Proof.
  intros H. unfold Py.fmt2.
  rewrite (Qltb_comp x y 0 H).
  rewrite (round_half_even_comp (Qabs x * inject_Z 100) (Qabs y * inject_Z 100)).
  - reflexivity.
  - rewrite H. reflexivity.
Qed.

Lemma fold_left_Qplus (xs : list Q) (a : Q) :
  (fold_left Qplus xs a == a + fold_right Qplus 0 xs)%Q.
Proof.
  revert a. induction xs as [| x xs IH]; intros a; simpl.
  - ring.
  - rewrite IH. ring.
Qed.

Lemma py_sum_total (xs : list Q) : (py_sum xs == fold_right Qplus 0 xs)%Q.
Proof. unfold py_sum. rewrite fold_left_Qplus. ring. Qed.

Lemma mean_unique (m : Q) (xs : list Q) :
  xs <> [] -> is_mean m xs -> (m == py_mean xs)%Q.
Proof.
  intros Hne Hm. unfold is_mean in Hm. unfold py_mean.
  rewrite py_sum_total, <- Hm.
  field. destruct xs as [| x xs]; [congruence |].
  unfold Qeq. simpl. lia.
Qed.

Lemma fold_left_ones {A} (l : list A) (a : Z) :
  fold_left Z.add (map (fun _ => 1%Z) l) a = (a + Z.of_nat (length l))%Z.
Proof.
  revert a. induction l as [| x l IH]; intros a; simpl length; simpl map; simpl fold_left.
  - lia.
  - rewrite IH. lia.
Qed.

Lemma py_count_filter (f : Row -> Q) (t : Q) (rs : list Row) :
  py_count (fun speed => Py.Qltb speed t) (map f rs)
  = Z.of_nat (length (filter (fun r => (f r < t)%Q) rs)).
Proof.
  unfold py_count. rewrite fold_left_ones, Z.add_0_l. f_equal.
  induction rs as [| r rs IH]; [reflexivity |].
  simpl map. simpl List.filter. rewrite filter_cons.
  destruct (decide (f r < t)%Q) as [H | H].
  - rewrite (proj2 (Qltb_lt _ _) H). cbn [length]. rewrite IH. reflexivity.
  - destruct (Py.Qltb (f r) t) eqn:E; [apply Qltb_lt in E; contradiction |].
    exact IH.
Qed.

(** ** Aggregation *)

(** C1. Over a non-empty sequence of complete records the summary's three
    averages are the arithmetic means of the download, upload and latency
    values (numbers idealised as exact rationals), printed with two
    decimals and the suffixes "Mbps", "Mbps" and "ms"; the two slow counts
    are the numbers of records strictly below the thresholds of the
    configuration the aggregation runs under. *)
Theorem C1_averages_and_slow_counts (cfg : Config) (rs : list Row)
    (md mu ml : Q) :
  rs <> [] ->
  is_mean md (map download_speed rs) ->
  is_mean mu (map upload_speed rs) ->
  is_mean ml (map latency rs) ->
  exists data,
    report_of_results cfg rs = Some data
    /\ dict_get "Average Download Speed" (summary data)
       = Some (SStr (Py.fmt2 md +:+ " Mbps"))
    /\ dict_get "Average Upload Speed" (summary data)
       = Some (SStr (Py.fmt2 mu +:+ " Mbps"))
    /\ dict_get "Average Latency" (summary data)
       = Some (SStr (Py.fmt2 ml +:+ " ms"))
    /\ dict_get "Slow Download Incidents" (summary data)
       = Some (SInt (Z.of_nat (length
           (filter (fun r => (download_speed r < DOWNLOAD_THRESHOLD cfg)%Q) rs))))
    /\ dict_get "Slow Upload Incidents" (summary data)
       = Some (SInt (Z.of_nat (length
           (filter (fun r => (upload_speed r < UPLOAD_THRESHOLD cfg)%Q) rs)))).
Proof.
  intros Hne Hd Hu Hl.
  assert (Hmap : forall f : Row -> Q, map f rs <> [])
    by (intros f; destruct rs; [congruence | discriminate]).
  apply mean_unique in Hd, Hu, Hl; try apply Hmap.
  destruct rs as [| r rs]; [congruence |].
  eexists. split; [reflexivity |].
  cbn [summary dict_get].
  repeat split.
  - change (String.eqb "Average Download Speed" "Average Download Speed") with true.
    cbv iota. rewrite (fmt2_comp _ _ Hd). reflexivity.
  - rewrite (fmt2_comp _ _ Hu). reflexivity.
  - rewrite (fmt2_comp _ _ Hl). reflexivity.
  - cbv [String.eqb Ascii.eqb Bool.eqb]. cbv iota.
    rewrite py_count_filter. reflexivity.
  - cbv [String.eqb Ascii.eqb Bool.eqb]. cbv iota.
    rewrite py_count_filter. reflexivity.
Qed.

Lemma C1_witness :
  exists data,
    report_of_results Samples.cfg0 [Samples.row3; Samples.row1] = Some data
    /\ dict_get "Average Download Speed" (summary data) = Some (SStr "350.00 Mbps")
    /\ dict_get "Average Upload Speed" (summary data) = Some (SStr "150.00 Mbps")
    /\ dict_get "Average Latency" (summary data) = Some (SStr "17.50 ms")
    /\ dict_get "Slow Download Incidents" (summary data) = Some (SInt 1)
    /\ dict_get "Slow Upload Incidents" (summary data) = Some (SInt 2).
Proof.
  apply (C1_averages_and_slow_counts Samples.cfg0 [Samples.row3; Samples.row1]
           (inject_Z 350) (inject_Z 150) (35 # 2)).
  - discriminate.
  - vm_compute. reflexivity.
  - vm_compute. reflexivity.
  - vm_compute. reflexivity.
Defined.

Lemma display_test (v t : Q) :
  (if Py.Qltb v t then Py.fmt2 v +:+ " Mbps" else "OK") = display v t.
Proof.
  unfold display. destruct (decide (v < t)%Q) as [H | H].
  - rewrite (proj2 (Qltb_lt _ _) H). reflexivity.
  - rewrite (Qltb_ge _ _ H). reflexivity.
Qed.

Lemma breach_test (cfg : Config) (r : Row) :
  Py.Qltb (download_speed r) (DOWNLOAD_THRESHOLD cfg)
  || Py.Qltb (upload_speed r) (UPLOAD_THRESHOLD cfg)
  = bool_decide (breach cfg r).
Proof.
  symmetry.
  destruct (Py.Qltb (download_speed r) (DOWNLOAD_THRESHOLD cfg)) eqn:Ed;
    [apply bool_decide_eq_true_2; left; apply Qltb_lt; exact Ed |].
  destruct (Py.Qltb (upload_speed r) (UPLOAD_THRESHOLD cfg)) eqn:Eu;
    [apply bool_decide_eq_true_2; right; apply Qltb_lt; exact Eu |].
  apply bool_decide_eq_false_2.
  intros [H | H]; apply Qltb_lt in H; congruence.
Qed.

Lemma incidents_loop (cfg : Config) (rs : list Row) (acc : list (list string)) :
  fold_left
    (fun incidents r =>
       if Py.Qltb (download_speed r) (DOWNLOAD_THRESHOLD cfg)
          || Py.Qltb (upload_speed r) (UPLOAD_THRESHOLD cfg)
       then
         (incidents ++
          [[strftime_iso (timestamp r);
            if Py.Qltb (download_speed r) (DOWNLOAD_THRESHOLD cfg)
            then Py.fmt2 (download_speed r) +:+ " Mbps" else "OK";
            if Py.Qltb (upload_speed r) (UPLOAD_THRESHOLD cfg)
            then Py.fmt2 (upload_speed r) +:+ " Mbps" else "OK"]])%list
       else incidents)
    rs acc
  = (acc ++ map (incident_row cfg) (filter (breach cfg) rs))%list.
Proof.
  revert acc. induction rs as [| r rs IH]; intros acc.
  - simpl. rewrite app_nil_r. reflexivity.
  - cbn [fold_left]. rewrite IH. rewrite filter_cons.
    rewrite !display_test, breach_test.
    destruct (decide (breach cfg r)) as [Hb | Hb].
    + rewrite bool_decide_eq_true_2 by exact Hb.
      rewrite <- app_assoc. reflexivity.
    + rewrite bool_decide_eq_false_2 by exact Hb. reflexivity.
Qed.

(** C2. The incident list of a report has exactly one row per record that
    is below the download threshold or below the upload threshold, in the
    order of the records, and none for a record meeting both; a row shows
    the timestamp and, for each direction, the two-decimal value with
    "Mbps" when that value is below its own threshold and "OK" otherwise. *)
Theorem C2_incident_rows (cfg : Config) (rs : list Row) :
  rs <> [] ->
  exists data,
    report_of_results cfg rs = Some data
    /\ incidents data = map (incident_row cfg) (filter (breach cfg) rs)
    /\ length (incidents data) = length (filter (breach cfg) rs)
    /\ (forall row, row ∈ incidents data <->
          exists r, r ∈ rs /\ breach cfg r /\ row = incident_row cfg r).
Proof.
  intros Hne. destruct rs as [| r rs]; [congruence |].
  eexists. split; [reflexivity |].
  cbn [incidents]. rewrite incidents_loop. cbn [app].
  split; [reflexivity |]. split.
  - rewrite length_map. reflexivity.
  - intros row. rewrite list_elem_of_fmap. split.
    + intros (r' & -> & Hin). apply list_elem_of_filter in Hin.
      destruct Hin as [Hb Hin]. exists r'. auto.
    + intros (r' & Hin & Hb & ->). exists r'. split; [reflexivity |].
      apply list_elem_of_filter. auto.
Qed.

Lemma C2_witness :
  exists data,
    report_of_results Samples.cfg0 [Samples.row3; Samples.row2; Samples.row1]
    = Some data
    /\ incidents data
       = [["2024-03-05 14:50:00"; "OK"; "250.00 Mbps"];
          ["2024-03-05 14:30:00"; "100.00 Mbps"; "50.00 Mbps"]]
    /\ length (incidents data) = 2%nat
    /\ (forall row, row ∈ incidents data <->
          exists r, r ∈ [Samples.row3; Samples.row2; Samples.row1]
                    /\ breach Samples.cfg0 r
                    /\ row = incident_row Samples.cfg0 r).
Proof.
  apply (C2_incident_rows Samples.cfg0
           [Samples.row3; Samples.row2; Samples.row1]).
  discriminate.
Defined.

Lemma distinct_size (l : list string) :
  size (list_to_set l : gset string) = length (remove_dups l).
Proof.
  rewrite <- (size_list_to_set (C := gset string) (remove_dups l))
    by apply NoDup_remove_dups.
  f_equal. apply set_eq. intros x.
  rewrite !elem_of_list_to_set, elem_of_remove_dups. reflexivity.
Qed.

Lemma report_ip_changes (cfg : Config) (rs : list Row) (data : ReportData) :
  report_of_results cfg rs = Some data ->
  dict_get "IP Changes" (summary data)
  = Some (SStr (if decide (1 < size (list_to_set (map ip_address rs) : gset string))%nat
                then "Yes" else "No")).
Proof.
  destruct rs as [| r rs]; [discriminate |].
  intros [= <-]. reflexivity.
Qed.

Lemma report_some (cfg : Config) (rs : list Row) :
  rs <> [] -> exists data, report_of_results cfg rs = Some data.
Proof. destruct rs; [congruence |]. intros _. eexists. reflexivity. Qed.

(** C3. For a non-empty record set the "IP Changes" entry is "Yes" exactly
    when the records carry more than one distinct ip_address, and "No"
    otherwise; any reordering of the records gives the same entry. *)
Theorem C3_ip_change_flag (cfg : Config) (rs rs' : list Row) :
  rs <> [] ->
  rs ≡ₚ rs' ->
  exists data data',
    report_of_results cfg rs = Some data
    /\ report_of_results cfg rs' = Some data'
    /\ (dict_get "IP Changes" (summary data) = Some (SStr "Yes")
        <-> (1 < length (remove_dups (map ip_address rs)))%nat)
    /\ (dict_get "IP Changes" (summary data) = Some (SStr "No")
        <-> (length (remove_dups (map ip_address rs)) <= 1)%nat)
    /\ dict_get "IP Changes" (summary data')
       = dict_get "IP Changes" (summary data).
Proof.
  intros Hne Hperm.
  assert (Hne' : rs' <> []).
  { intros ->. apply Permutation_nil_r in Hperm. contradiction. }
  destruct (report_some cfg rs Hne) as [data Hd].
  destruct (report_some cfg rs' Hne') as [data' Hd'].
  exists data, data'. split; [exact Hd |]. split; [exact Hd' |].
  rewrite (report_ip_changes cfg rs data Hd).
  rewrite (report_ip_changes cfg rs' data' Hd').
  rewrite <- distinct_size.
  split; [| split].
  - destruct (decide _); split; intros H; try congruence; try lia; reflexivity.
  - destruct (decide _); split; intros H; try congruence; try lia; reflexivity.
  - assert (E : (list_to_set (map ip_address rs') : gset string)
                = list_to_set (map ip_address rs)).
    { apply list_to_set_perm_L. symmetry.
      apply Permutation_map. exact Hperm. }
    rewrite E. reflexivity.
Qed.

Lemma C3_witness :
  exists data data',
    report_of_results Samples.cfg0 [Samples.row1; Samples.row2; Samples.row3]
    = Some data
    /\ report_of_results Samples.cfg0 [Samples.row3; Samples.row1; Samples.row2]
       = Some data'
    /\ (dict_get "IP Changes" (summary data) = Some (SStr "Yes")
        <-> (1 < length (remove_dups
                   (map ip_address [Samples.row1; Samples.row2; Samples.row3])))%nat)
    /\ (dict_get "IP Changes" (summary data) = Some (SStr "No")
        <-> (length (remove_dups
               (map ip_address [Samples.row1; Samples.row2; Samples.row3])) <= 1)%nat)
    /\ dict_get "IP Changes" (summary data')
       = dict_get "IP Changes" (summary data).
Proof.
  apply (C3_ip_change_flag Samples.cfg0
           [Samples.row1; Samples.row2; Samples.row3]
           [Samples.row3; Samples.row1; Samples.row2]).
  - discriminate.
  - symmetry.
    apply (Permutation_cons_append [Samples.row1; Samples.row2] Samples.row3).
Defined.

(** ** The measurement cycle *)

Ltac run_monad :=
  unfold try_except, bind, call, get, modify, logging, ret, raise; cbn.

Lemma new_events_app (w w' : World) (evs : list log_event) :
  log w' = (log w ++ evs)%list -> new_events w w' = evs.
Proof. intros H. unfold new_events. rewrite H. apply drop_app_length. Qed.

Lemma new_calls_app (w w' : World) (cs : list ext_call) :
  calls w' = (calls w ++ cs)%list -> new_calls w w' = cs.
Proof. intros H. unfold new_calls. rewrite H. apply drop_app_length. Qed.

(** C10. The speed-test wrapper never raises and returns either three
    present values (when the provider answers every step: the download and
    upload rates divided by 1,000,000 and the ping, nothing logged) or
    three absent values (when any step raises: one error logged). *)
Theorem C10_speed_test_all_or_nothing (w : World) :
  exists w',
    (exists d u,
        st_init (env w) = Ok tt /\ st_get_best_server (env w) = Ok tt
        /\ st_download (env w) = Ok d /\ st_upload (env w) = Ok u
        /\ perform_speed_test w
           = (Ok (Some (d / inject_Z 1000000)%Q, Some (u / inject_Z 1000000)%Q,
                  Some (st_ping (env w))), w')
        /\ log w' = log w)
    \/ (exists e,
        (st_init (env w) = Raise e \/ st_get_best_server (env w) = Raise e
         \/ st_download (env w) = Raise e \/ st_upload (env w) = Raise e)
        /\ perform_speed_test w = (Ok (None, None, None), w')
        /\ log w' = (log w ++ [LogEvent ERROR ("Speed test error: " +:+ exn_str e)])%list).
Proof.
  unfold perform_speed_test. run_monad.
  destruct (st_init (env w)) as [[] | e1] eqn:E1;
    [| eexists; right; exists e1; eauto].
  destruct (st_get_best_server (env w)) as [[] | e2] eqn:E2;
    [| eexists; right; exists e2; eauto].
  destruct (st_download (env w)) as [d | e3] eqn:E3;
    [| eexists; right; exists e3; eauto 6].
  destruct (st_upload (env w)) as [u | e4] eqn:E4;
    [| eexists; right; exists e4; eauto 7].
  eexists. left. exists d, u. eauto 7.
Qed.



(** ** The report cycle *)

Lemma bind_ok {A B} (m : M A) (k : A -> M B) (w w' : World) (a : A) :
  m w = (Ok a, w') -> bind m k w = k a w'.
Proof. intros H. unfold bind. rewrite H. reflexivity. Qed.

Lemma bind_raise {A B} (m : M A) (k : A -> M B) (w w' : World) (e : exn) :
  m w = (Raise e, w') -> bind m k w = (Raise e, w').
Proof. intros H. unfold bind. rewrite H. reflexivity. Qed.

Lemma count_level_app (l : level) (xs ys : list log_event) :
  count_level l (xs ++ ys) = (count_level l xs + count_level l ys)%nat.
Proof. unfold count_level. rewrite List.filter_app, length_app. reflexivity. Qed.

(** What [get_report_data] does, case by case, with the world it leaves. *)
Lemma get_report_data_cases (cfg : Config) (hours : Z) (w : World) :
  (exists e, db_connect (env w) = Raise e
     /\ get_report_data cfg hours w
        = (Ok None,
           set_log (fun evs =>
               (evs ++ [LogEvent ERROR ("Error getting report data: " +:+ exn_str e)])%list)
             (set_calls (fun cs => (cs ++ [CDbConnect])%list) w)))
  \/ (exists e, db_connect (env w) = Ok tt /\ db_select (env w) = Raise e
     /\ get_report_data cfg hours w
        = (Ok None,
           set_log (fun evs =>
               (evs ++ [LogEvent ERROR ("Error getting report data: " +:+ exn_str e)])%list)
             (set_calls (fun cs => ((cs ++ [CDbConnect]) ++ [CDbSelect])%list) w)))
  \/ (db_connect (env w) = Ok tt /\ db_select (env w) = Ok tt
     /\ get_report_data cfg hours w
        = (Ok (report_of_results cfg (window_rows hours w)),
           set_calls (fun cs => ((cs ++ [CDbConnect]) ++ [CDbSelect])%list) w)).
Proof.
  unfold get_report_data, fetchall, window_rows. run_monad.
  destruct (db_connect (env w)) as [[] | e1]; cbn.
  - destruct (db_select (env w)) as [[] | e2]; cbn.
    + right. right. auto.
    + right. left. exists e2. auto.
  - left. exists e1. auto.
Qed.

(** [get_report_data] touches only the log and the call record; it logs
    nothing but errors, and nothing at all when it returns data. *)
Lemma get_report_data_frame (cfg : Config) (hours : Z) (w w1 : World)
    (r : option ReportData) :
  get_report_data cfg hours w = (Ok r, w1) ->
  env w1 = env w /\ clock w1 = clock w /\ rows w1 = rows w
  /\ files w1 = files w /\ outbox w1 = outbox w
  /\ (exists errs, log w1 = (log w ++ errs)%list
        /\ count_level WARNING errs = 0%nat
        /\ count_level INFO errs = 0%nat
        /\ (r <> None -> errs = []))
  /\ (exists cs, calls w1 = (calls w ++ cs)%list /\ Forall store_call cs).
Proof.
  intros H.
  destruct (get_report_data_cases cfg hours w)
    as [(e & _ & E) | [(e & _ & _ & E) | (_ & _ & E)]];
    rewrite E in H; injection H as <- <-; cbn;
    repeat (split; [reflexivity |]).
  - split.
    + eexists. split; [reflexivity |]. repeat split; congruence.
    + eexists. split; [reflexivity |].
      constructor; [left; reflexivity | constructor].
  - split.
    + eexists. split; [reflexivity |]. repeat split; congruence.
    + exists [CDbConnect; CDbSelect]. rewrite <- app_assoc.
      split; [reflexivity |].
      constructor; [left; reflexivity |].
      constructor; [right; reflexivity | constructor].
  - split.
    + exists []. rewrite app_nil_r. repeat split; reflexivity.
    + exists [CDbConnect; CDbSelect]. rewrite <- app_assoc.
      split; [reflexivity |].
      constructor; [left; reflexivity |].
      constructor; [right; reflexivity | constructor].
Qed.

(** [send_email_report] catches every exception. *)
Lemma send_email_report_returns (cfg : Config) (hours : Z) (w : World) :
  exists w', send_email_report cfg hours w = (Ok tt, w').
Proof.
  unfold send_email_report, try_except.
  match goal with |- context [match ?b w with _ => _ end] =>
    destruct (b w) as [[[] | e] w2] end.
  - eexists. reflexivity.
  - eexists. reflexivity.
Qed.

(** C5. Aggregating an empty record set gives the absent value, and so does
    the query of a reachable store over a window without records (nothing
    logged); the report cycle that receives absent report data returns
    normally, logs exactly one warning, makes no call beyond those to the
    store, writes no file and sends no message. *)
Theorem C5_empty_window_no_report (cfg : Config) (hours : Z) (w : World) :
  report_of_results cfg [] = None
  /\ (db_connect (env w) = Ok tt -> db_select (env w) = Ok tt ->
      List.filter (in_window (clock w) hours) (rows w) = [] ->
      exists w1, get_report_data cfg hours w = (Ok None, w1)
                 /\ log w1 = log w)
  /\ (forall w1, get_report_data cfg hours w = (Ok None, w1) ->
      exists w',
        send_email_report cfg hours w = (Ok tt, w')
        /\ log w' = (log w1 ++ [LogEvent WARNING
             ("No data available for the past " +:+ Py.str_of_Z hours +:+ " hours")])%list
        /\ count_level WARNING (new_events w w') = 1%nat
        /\ Forall store_call (new_calls w w')
        /\ files w' = files w
        /\ outbox w' = outbox w).
Proof.
  split; [reflexivity |]. split.
  - intros Hc Hs Hempty.
    destruct (get_report_data_cases cfg hours w)
      as [(e & E & _) | [(e & _ & E & _) | (_ & _ & E)]]; try congruence.
    eexists. split.
    + rewrite E. unfold window_rows. rewrite Hempty. reflexivity.
    + reflexivity.
  - intros w1 H.
    destruct (get_report_data_frame cfg hours w w1 None H)
      as (_ & _ & _ & Hf & Ho & (errs & Hlog & Hwarn & _ & _) & (cs & Hcalls & Hcs)).
    unfold send_email_report, try_except.
    erewrite bind_ok by reflexivity. cbv zeta.
    erewrite bind_ok by exact H.
    eexists. split; [reflexivity |]. cbn.
    split; [reflexivity |]. split; [| split; [| split]].
    + erewrite new_events_app
        by (cbn; rewrite Hlog, <- app_assoc; reflexivity).
      rewrite count_level_app, Hwarn. reflexivity.
    + erewrite new_calls_app by (cbn; exact Hcalls). exact Hcs.
    + exact Hf.
    + exact Ho.
Qed.

Lemma C5_witness :
  exists w',
    send_email_report Samples.cfg0 6 (Samples.world_of Samples.env_ok [])
    = (Ok tt, w')
    /\ count_level WARNING (log w') = 1%nat
    /\ files w' = ∅ /\ outbox w' = [].
Proof.
  destruct (C5_empty_window_no_report Samples.cfg0 6
              (Samples.world_of Samples.env_ok [])) as (_ & H1 & H2).
  destruct (H1 eq_refl eq_refl eq_refl) as (w1 & E1 & L1).
  destruct (H2 w1 E1) as (w' & E & L & _ & _ & F & O).
  exists w'. split; [exact E |]. split; [| split; [exact F | exact O]].
  rewrite L, L1. reflexivity.
Defined.

(** An empty window and an unreachable store give the same return value. *)
Lemma C6_counterexample :
  ~ (fst (get_report_data Samples.cfg0 6 (Samples.world_of Samples.env_ok []))
     <> fst (get_report_data Samples.cfg0 6
               (Samples.world_of Samples.env_db_down [Samples.row1]))).
Proof. intros H. apply H. vm_compute. reflexivity. Qed.

(** C6 (amended). The windowed query returns the same absent value for a
    window without records and for a query that fails (store unreachable
    or query error): the returned value does not tell the two apart. *)
Theorem C6_absent_for_empty_and_for_failed (cfg : Config) (hours : Z)
    (w : World) :
  (window_rows hours w = [] -> fst (get_report_data cfg hours w) = Ok None)
  /\ (forall e, query_fails (env w) e ->
      fst (get_report_data cfg hours w) = Ok None).
Proof.
  split.
  - intros Hempty.
    destruct (get_report_data_cases cfg hours w)
      as [(e & _ & E) | [(e & _ & _ & E) | (_ & _ & E)]];
      rewrite E; [reflexivity | reflexivity |].
    rewrite Hempty. reflexivity.
  - intros e Hfail.
    destruct (get_report_data_cases cfg hours w)
      as [(e' & Hc & E) | [(e' & Hc & Hs & E) | (Hc & Hs & _)]];
      destruct Hfail as [Hf | [Hf1 Hf2]]; try congruence;
      rewrite E; reflexivity.
Qed.

Lemma C6_witness :
  fst (get_report_data Samples.cfg0 6 (Samples.world_of Samples.env_ok []))
  = Ok None
  /\ fst (get_report_data Samples.cfg0 6
            (Samples.world_of Samples.env_db_down [Samples.row1]))
     = Ok None.
Proof.
  split.
  - apply (proj1 (C6_absent_for_empty_and_for_failed Samples.cfg0 6
                    (Samples.world_of Samples.env_ok []))).
    reflexivity.
  - apply (proj2 (C6_absent_for_empty_and_for_failed Samples.cfg0 6
                    (Samples.world_of Samples.env_db_down [Samples.row1]))
             (Exception "connection refused")).
    left. reflexivity.
Defined.

(** C7. Evaluated on a window with one record and a transport that raises
    on send: the cycle returns normally and logs the error, but it never
    calls [os.remove], and both attachment files are still there. *)
Theorem C7_artifacts_left_when_send_fails :
  exists w',
    send_email_report Samples.cfg0 6
      (Samples.world_of Samples.env_smtp_down [Samples.row1]) = (Ok tt, w')
    /\ is_Some (files w' !! "network_report_6h.pdf")
    /\ is_Some (files w' !! "network_data_6h.csv")
    /\ calls w'
       = [CDbConnect; CDbSelect; CPdfBuild "network_report_6h.pdf";
          CCsvOpen "network_data_6h.csv"; CSmtp; CStarttls; CLogin; CSendMessage]
    /\ log w' = [LogEvent ERROR "Error sending email report: SMTP error"].
Proof.
  eexists. split; [vm_compute; reflexivity |].
  split; [vm_compute; eexists; reflexivity |].
  split; [vm_compute; eexists; reflexivity |].
  split; reflexivity.
Qed.

Lemma generate_pdf_report_ok (data : ReportData) (start_time end_time : datetime)
    (filename : string) (w : World) :
  pdf_build (env w) = Ok tt ->
  generate_pdf_report data start_time end_time filename w
  = (Ok tt,
     set_files (fun fs =>
         <[filename := PdfFile (pdf_elements data start_time end_time)]> fs)
       (set_calls (fun cs => (cs ++ [CPdfBuild filename])%list) w)).
Proof.
  intros H. unfold generate_pdf_report, bind, call. rewrite H. reflexivity.
Qed.

Lemma generate_csv_report_ok (data : list (list cell)) (filename : string)
    (w : World) :
  csv_open (env w) = Ok tt ->
  exists c,
    generate_csv_report data filename w
    = (Ok tt,
       set_files (fun fs => <[filename := c]> fs)
         (set_calls (fun cs => (cs ++ [CCsvOpen filename])%list) w)).
Proof.
  intros H. unfold generate_csv_report, bind, call. rewrite H.
  eexists. reflexivity.
Qed.

Lemma read_file_ok (filename : string) (c : file_content) (w : World) :
  files w !! filename = Some c -> read_file filename w = (Ok c, w).
Proof.
  intros H. unfold read_file, bind, get. cbv beta iota.
  rewrite H. reflexivity.
Qed.

Lemma smtp_session_raises (msg : Message) (w : World) (e : exn) :
  smtp_raises (env w) e ->
  exists w', smtp_session msg w = (Raise e, w')
             /\ log w' = log w /\ files w' = files w /\ outbox w' = outbox w.
Proof.
  unfold smtp_raises, smtp_session, bind, call. cbn.
  intros [H | [(H1 & H) | [(H1 & H2 & H) | (H1 & H2 & H3 & H)]]];
    rewrite ?H1, ?H2, ?H3, H; eexists; repeat split; reflexivity.
Qed.

Lemma report_filenames_differ (h : string) :
  "network_data_" +:+ h +:+ "h.csv" <> "network_report_" +:+ h +:+ "h.pdf".
Proof.
  intros H. apply (f_equal (String.get 8)) in H.
  cbv in H. discriminate H.
Qed.

(** The report cycle when the transport raises: one error event, nothing
    sent, and both attachment files left where they were written. *)
Lemma report_cycle_transport_raises (cfg : Config) (hours : Z) (w w1 : World)
    (data : ReportData) (e : exn) :
  get_report_data cfg hours w = (Ok (Some data), w1) ->
  pdf_build (env w) = Ok tt ->
  csv_open (env w) = Ok tt ->
  smtp_raises (env w) e ->
  exists w',
    send_email_report cfg hours w = (Ok tt, w')
    /\ new_events w w'
       = [LogEvent ERROR ("Error sending email report: " +:+ exn_str e)]
    /\ outbox w' = outbox w
    /\ is_Some (files w' !! ("network_report_" +:+ Py.str_of_Z hours +:+ "h.pdf"))
    /\ is_Some (files w' !! ("network_data_" +:+ Py.str_of_Z hours +:+ "h.csv")).
Proof.
  intros Hdata Hpdf Hcsv Hsmtp.
  destruct (get_report_data_frame cfg hours w w1 (Some data) Hdata)
    as (Henv & _ & _ & _ & Hout & (errs & Hlog & _ & _ & Herrs) & _).
  rewrite (Herrs ltac:(discriminate)), app_nil_r in Hlog.
  rewrite <- Henv in Hpdf, Hcsv, Hsmtp.
  unfold send_email_report, try_except.
  erewrite bind_ok by reflexivity. cbv beta zeta.
  erewrite bind_ok by exact Hdata. cbv beta iota zeta.
  erewrite bind_ok by (apply generate_pdf_report_ok; exact Hpdf).
  match goal with |- context [bind (generate_csv_report ?d ?f) _ ?wc] =>
    destruct (generate_csv_report_ok d f wc Hcsv) as [c Hc]
  end.
  erewrite bind_ok by exact Hc.
  erewrite bind_ok.
  2:{ apply read_file_ok. cbn [files set_files set_calls].
      rewrite lookup_insert_ne by apply report_filenames_differ.
      apply lookup_insert_eq. }
  erewrite bind_ok.
  2:{ apply read_file_ok. cbn [files set_files set_calls].
      apply lookup_insert_eq. }
  match goal with |- context [bind (smtp_session ?m) _ ?wc] =>
    destruct (smtp_session_raises m wc e Hsmtp) as (w3 & Hs & L3 & F3 & O3)
  end.
  erewrite bind_raise by exact Hs.
  eexists. split; [reflexivity |]. split; [| split; [| split]].
  - apply new_events_app. cbn [log set_log]. rewrite L3. cbn [log set_files set_calls].
    rewrite Hlog. reflexivity.
  - cbn [outbox set_log]. rewrite O3. cbn [outbox set_files set_calls].
    exact Hout.
  - cbn [files set_log]. rewrite F3. cbn [files set_files set_calls].
    rewrite lookup_insert_ne by apply report_filenames_differ.
    rewrite lookup_insert_eq. eexists. reflexivity.
  - cbn [files set_log]. rewrite F3. cbn [files set_files set_calls].
    rewrite lookup_insert_eq. eexists. reflexivity.
Qed.

(** C8. The report cycle never raises; and when the report data is there,
    both artifacts are written and the transport raises at any of its
    steps, the cycle logs exactly one event, an error naming the
    exception, and no message leaves. *)
Theorem C8_transport_failure_is_caught (cfg : Config) (hours : Z) (w : World) :
  (exists w', send_email_report cfg hours w = (Ok tt, w'))
  /\ (forall data w1 e,
        get_report_data cfg hours w = (Ok (Some data), w1) ->
        pdf_build (env w) = Ok tt ->
        csv_open (env w) = Ok tt ->
        smtp_raises (env w) e ->
        exists w',
          send_email_report cfg hours w = (Ok tt, w')
          /\ new_events w w'
             = [LogEvent ERROR ("Error sending email report: " +:+ exn_str e)]
          /\ count_level ERROR (new_events w w') = 1%nat
          /\ outbox w' = outbox w).
Proof.
  split; [apply send_email_report_returns |].
  intros data w1 e Hdata Hpdf Hcsv Hsmtp.
  destruct (report_cycle_transport_raises cfg hours w w1 data e
              Hdata Hpdf Hcsv Hsmtp) as (w' & E & L & O & _).
  exists w'. split; [exact E |]. split; [exact L |].
  split; [rewrite L; reflexivity | exact O].
Qed.

Lemma C8_witness :
  exists w',
    send_email_report Samples.cfg0 6
      (Samples.world_of Samples.env_smtp_down [Samples.row1]) = (Ok tt, w')
    /\ new_events (Samples.world_of Samples.env_smtp_down [Samples.row1]) w'
       = [LogEvent ERROR "Error sending email report: SMTP error"]
    /\ count_level ERROR
         (new_events (Samples.world_of Samples.env_smtp_down [Samples.row1]) w')
       = 1%nat
    /\ outbox w' = [].
Proof.
  eapply (proj2 (C8_transport_failure_is_caught Samples.cfg0 6
                   (Samples.world_of Samples.env_smtp_down [Samples.row1]))
            _ _ (Exception "SMTP error")).
  - reflexivity.
  - reflexivity.
  - reflexivity.
  - right. right. right. repeat split; reflexivity.
Defined.

(** ** The document *)

Lemma summary_loop (kvs : list (string * sval)) (els : list flowable) :
  fold_left
    (fun els kv =>
       (els ++ [Paragraph ("• " +:+ fst kv +:+ ": " +:+ sval_str (snd kv))
                  "Normal"])%list)
    kvs els
  = (els ++ map summary_line kvs)%list.
Proof.
  revert els. induction kvs as [| kv kvs IH]; intros els; cbn [fold_left map].
  - rewrite app_nil_r. reflexivity.
  - rewrite IH, <- app_assoc. reflexivity.
Qed.

Lemma tables_app (xs ys : list flowable) :
  tables (xs ++ ys) = (tables xs ++ tables ys)%list.
Proof. unfold tables. apply omap_app. Qed.

Lemma tables_summary (kvs : list (string * sval)) :
  tables (map summary_line kvs) = [].
Proof. induction kvs as [| kv kvs IH]; [reflexivity | exact IH]. Qed.

(** C9. Building the document fails only if the renderer itself fails,
    whatever the incident list.  The document always starts with the
    title, the period line and the summary section (one line per summary
    entry, in order).  With no incidents it ends there and holds no table;
    with incidents it continues with the incidents heading and a single
    table whose first row is the header and whose other rows are the
    incidents, one each. *)
Theorem C9_document_sections (data : ReportData)
    (start_time end_time : datetime) (filename : string) (w : World) :
  fst (generate_pdf_report data start_time end_time filename w)
  = pdf_build (env w)
  /\ (pdf_build (env w) = Ok tt ->
      files (snd (generate_pdf_report data start_time end_time filename w))
        !! filename
      = Some (PdfFile (pdf_elements data start_time end_time)))
  /\ (exists rest,
        pdf_elements data start_time end_time
        = ([Paragraph "Network Monitoring Report" "Title"; Spacer 1 12;
            Paragraph ("Report Period: " +:+ strftime_us start_time +:+ " - "
                         +:+ strftime_us end_time) "Normal";
            Spacer 1 12;
            Paragraph "Summary:" "Heading2"]
           ++ map summary_line (summary data) ++ [Spacer 1 12] ++ rest)%list
        /\ (incidents data = [] -> rest = [])
        /\ (incidents data <> [] ->
            rest = [Paragraph "Speed Incidents:" "Heading2";
                    Table (["Timestamp"; "Download Speed"; "Upload Speed"]
                             :: incidents data)]))
  /\ (incidents data = [] ->
      tables (pdf_elements data start_time end_time) = [])
  /\ (incidents data <> [] ->
      exists t,
        tables (pdf_elements data start_time end_time) = [t]
        /\ head t = Some ["Timestamp"; "Download Speed"; "Upload Speed"]
        /\ tail t = incidents data
        /\ length t = S (length (incidents data))).
Proof.
  split; [| split].
  - unfold generate_pdf_report, bind, call.
    destruct (pdf_build (env w)) as [[] | e]; reflexivity.
  - intros H. rewrite generate_pdf_report_ok by exact H.
    cbn [snd files set_files set_calls]. apply lookup_insert_eq.
  - assert (Hrest : exists rest,
        pdf_elements data start_time end_time
        = ([Paragraph "Network Monitoring Report" "Title"; Spacer 1 12;
            Paragraph ("Report Period: " +:+ strftime_us start_time +:+ " - "
                         +:+ strftime_us end_time) "Normal";
            Spacer 1 12;
            Paragraph "Summary:" "Heading2"]
           ++ map summary_line (summary data) ++ [Spacer 1 12] ++ rest)%list
        /\ (incidents data = [] -> rest = [])
        /\ (incidents data <> [] ->
            rest = [Paragraph "Speed Incidents:" "Heading2";
                    Table (["Timestamp"; "Download Speed"; "Upload Speed"]
                             :: incidents data)])).
    { unfold pdf_elements. cbv zeta. rewrite summary_loop.
      destruct (incidents data) as [| i more].
      - exists []. split; [| split; [reflexivity | congruence]].
        rewrite <- ?app_assoc. reflexivity.
      - eexists. split; [| split; [discriminate | reflexivity]].
        rewrite <- ?app_assoc. reflexivity. }
    split; [exact Hrest |].
    destruct Hrest as (rest & E & Hnil & Hcons).
    split.
    + intros Hi. rewrite E, (Hnil Hi).
      rewrite !tables_app, tables_summary. reflexivity.
    + intros Hi. rewrite E, (Hcons Hi).
      rewrite !tables_app, tables_summary.
      eexists. split; [reflexivity |]. repeat split; reflexivity.
Qed.

Lemma C9_witness :
  (fst (generate_pdf_report Samples.quiet_report
          (sub_hours Samples.noon 6) Samples.noon "network_report_6h.pdf"
          (Samples.world_of Samples.env_ok [])) = Ok tt
   /\ tables (pdf_elements Samples.quiet_report
                (sub_hours Samples.noon 6) Samples.noon) = [])
  /\ (exists t,
        tables (pdf_elements Samples.incident_report
                  (sub_hours Samples.noon 6) Samples.noon) = [t]
        /\ head t = Some ["Timestamp"; "Download Speed"; "Upload Speed"]
        /\ tail t = [["2024-03-05 15:00:00"; "100.00 Mbps"; "50.00 Mbps"]]
        /\ length t = 2%nat).
Proof.
  split; [split |].
  - apply (C9_document_sections Samples.quiet_report
             (sub_hours Samples.noon 6) Samples.noon "network_report_6h.pdf"
             (Samples.world_of Samples.env_ok [])).
  - apply (C9_document_sections Samples.quiet_report
             (sub_hours Samples.noon 6) Samples.noon "network_report_6h.pdf"
             (Samples.world_of Samples.env_ok [])).
    reflexivity.
  - apply (C9_document_sections Samples.incident_report
             (sub_hours Samples.noon 6) Samples.noon "network_report_6h.pdf"
             (Samples.world_of Samples.env_ok [])).
    discriminate.
Defined.

(** ** Worked examples *)

(** The end-to-end scenario: one record of 100 Mbps down, 50 Mbps up and
    20 ms from 1.2.3.4, under the thresholds 500 and 300. *)
Example scenario_single_record :
  report_of_results Samples.cfg0
    [mk_Row 1 Samples.noon (inject_Z 100) (inject_Z 50) (inject_Z 20) "1.2.3.4"]
  = Some Samples.incident_report.
Proof. vm_compute. reflexivity. Qed.

(** A record meeting both thresholds is no incident. *)
Example scenario_fast_record :
  incidents <$> report_of_results Samples.cfg0 [Samples.row2] = Some [].
Proof. vm_compute. reflexivity. Qed.

(** A full check cycle against collaborators that all answer. *)
Example scenario_check_cycle :
  let w' := snd (perform_network_check (Samples.world_of Samples.env_ok [])) in
  rows w' = [mk_Row 1 Samples.noon (inject_Z 100000000 / inject_Z 1000000)
               (inject_Z 50000000 / inject_Z 1000000) (inject_Z 20) "1.2.3.4"]
  /\ map lv (log w') = [INFO; INFO].
Proof. vm_compute. split; reflexivity. Qed.

(** A report cycle that succeeds removes both files after sending. *)
Example scenario_report_sent :
  let w' := snd (send_email_report Samples.cfg0 6
                   (Samples.world_of Samples.env_ok [Samples.row1])) in
  files w' = ∅ /\ length (outbox w') = 1%nat /\ map lv (log w') = [INFO].
Proof. vm_compute. repeat split; reflexivity. Qed.

(** A report cycle whose first removal fails: the message has left, an
    error is logged after the success event, and the second file is never
    removed. *)
Example scenario_cleanup_fails :
  let w' := snd (send_email_report Samples.cfg0 6
                   (Samples.world_of Samples.env_remove_denied [Samples.row1])) in
  length (outbox w') = 1%nat
  /\ log w'
     = [LogEvent INFO "Email report sent successfully for past 6 hours";
        LogEvent ERROR "Error sending email report: Permission denied"]
  /\ is_Some (files w' !! "network_report_6h.pdf")
  /\ is_Some (files w' !! "network_data_6h.csv")
  /\ last (calls w') = Some (COsRemove "network_report_6h.pdf").
Proof. vm_compute. repeat split; try reflexivity; eexists; reflexivity. Qed.

(** Formatting with two decimals rounds to nearest, ties to even. *)
Example fmt2_examples :
  Py.fmt2 (1 # 8) = "0.12" /\ Py.fmt2 (3 # 8) = "0.38"
  /\ Py.fmt2 (-1 # 1000) = "-0.00" /\ Py.fmt2 (2999 # 1000) = "3.00".
Proof. vm_compute. repeat split; reflexivity. Qed.

Example strftime_examples :
  strftime_iso (of_seconds 1709650800) = "2024-03-05 15:00:00"
  /\ strftime_us (sub_hours (of_seconds 1709650800) 24) = "03/04/2024, 03:00:00 PM"
  /\ strftime_iso (sub_hours (mk_datetime 2024 3 1 0 30 0) 1) = "2024-02-29 23:30:00".
Proof. vm_compute. repeat split; reflexivity. Qed.

(** * Further properties *)

(** ** Aggregation: counts, incident rows, single records, means *)

Lemma string_length_append (a b : string) :
  String.length (a +:+ b) = (String.length a + String.length b)%nat.
Proof.
  induction a as [| c a IH]; [reflexivity |].
  change (S (String.length (a +:+ b)) = S (String.length a + String.length b)).
  rewrite IH. reflexivity.
Qed.

Lemma display_below (v t : Q) : (v < t)%Q -> display v t <> "OK".
Proof.
  intros H E. unfold display in E. rewrite decide_True in E by exact H.
  apply (f_equal String.length) in E. rewrite string_length_append in E.
  cbn in E. lia.
Qed.

Lemma report_incidents (cfg : Config) (rs : list Row) (data : ReportData) :
  report_of_results cfg rs = Some data ->
  incidents data = map (incident_row cfg) (filter (breach cfg) rs).
Proof.
  unfold report_of_results. destruct rs as [| r rs]; [discriminate |].
  rewrite incidents_loop. intros [= <-]. reflexivity.
Qed.

Lemma report_slow_counts (cfg : Config) (rs : list Row) (data : ReportData) :
  report_of_results cfg rs = Some data ->
  dict_get "Slow Download Incidents" (summary data)
  = Some (SInt (Z.of_nat (length
      (filter (fun r => (download_speed r < DOWNLOAD_THRESHOLD cfg)%Q) rs))))
  /\ dict_get "Slow Upload Incidents" (summary data)
     = Some (SInt (Z.of_nat (length
         (filter (fun r => (upload_speed r < UPLOAD_THRESHOLD cfg)%Q) rs)))).
Proof.
  destruct rs as [| r rs]; [discriminate |].
  intros H. cbv beta iota zeta delta [report_of_results] in H.
  apply (inj Some) in H. subst data. cbn [summary dict_get].
  split; cbv [String.eqb Ascii.eqb Bool.eqb]; cbv iota;
    rewrite py_count_filter; reflexivity.
Qed.

Lemma report_raw_data (cfg : Config) (rs : list Row) (data : ReportData) :
  report_of_results cfg rs = Some data -> raw_data data = map raw_row rs.
Proof.
  destruct rs as [| r rs]; [discriminate |].
  intros [= <-]. reflexivity.
Qed.

Lemma breach_filter_lengths (cfg : Config) (rs : list Row) :
  (length (filter (fun r => (download_speed r < DOWNLOAD_THRESHOLD cfg)%Q) rs)
   <= length (filter (breach cfg) rs))%nat
  /\ (length (filter (fun r => (upload_speed r < UPLOAD_THRESHOLD cfg)%Q) rs)
      <= length (filter (breach cfg) rs))%nat
  /\ (length (filter (breach cfg) rs)
      <= length (filter (fun r => (download_speed r < DOWNLOAD_THRESHOLD cfg)%Q) rs)
         + length (filter (fun r => (upload_speed r < UPLOAD_THRESHOLD cfg)%Q) rs))%nat.
Proof.
  induction rs as [| x rs (IH1 & IH2 & IH3)]; [cbn; lia |].
  rewrite !filter_cons.
  destruct (decide (download_speed x < DOWNLOAD_THRESHOLD cfg)%Q) as [HP | HP];
    destruct (decide (upload_speed x < UPLOAD_THRESHOLD cfg)%Q) as [HQ | HQ];
    destruct (decide (breach cfg x)) as [HPQ | HPQ]; cbn [length];
    try lia; exfalso; unfold breach in HPQ; tauto.
Qed.

(** The slow counts and the incident list agree: each count is at most the
    number of incidents, the incidents are at most the two counts together
    and at most the records. *)
Theorem report_counts_bound_incidents (cfg : Config) (rs : list Row)
    (data : ReportData) :
  report_of_results cfg rs = Some data ->
  exists a b : Z,
    dict_get "Slow Download Incidents" (summary data) = Some (SInt a)
    /\ dict_get "Slow Upload Incidents" (summary data) = Some (SInt b)
    /\ (0 <= a <= Z.of_nat (length (incidents data)))%Z
    /\ (0 <= b <= Z.of_nat (length (incidents data)))%Z
    /\ (Z.of_nat (length (incidents data)) <= a + b)%Z
    /\ (length (incidents data) <= length rs)%nat.
Proof.
  intros H.
  destruct (report_slow_counts cfg rs data H) as [Ha Hb].
  rewrite (report_incidents cfg rs data H), length_map.
  do 2 eexists. split; [exact Ha |]. split; [exact Hb |].
  destruct (breach_filter_lengths cfg rs) as (H1 & H2 & H3).
  pose proof (length_filter (breach cfg) rs) as H4.
  repeat split; lia.
Qed.

Lemma report_counts_bound_incidents_witness :
  exists a b : Z,
    dict_get "Slow Download Incidents" (summary Samples.incident_report)
    = Some (SInt a)
    /\ dict_get "Slow Upload Incidents" (summary Samples.incident_report)
       = Some (SInt b)
    /\ (0 <= a <= Z.of_nat (length (incidents Samples.incident_report)))%Z
    /\ (0 <= b <= Z.of_nat (length (incidents Samples.incident_report)))%Z
    /\ (Z.of_nat (length (incidents Samples.incident_report)) <= a + b)%Z
    /\ (length (incidents Samples.incident_report) <= 1)%nat.
Proof.
  apply (report_counts_bound_incidents Samples.cfg0
           [mk_Row 1 Samples.noon (inject_Z 100) (inject_Z 50) (inject_Z 20)
              "1.2.3.4"]).
  vm_compute. reflexivity.
Defined.

(** Every incident row has three cells, the timestamp of a breaching record
    first, and never shows "OK" in both speed columns. *)
Theorem incident_row_shape (cfg : Config) (rs : list Row) (data : ReportData)
    (row : list string) :
  report_of_results cfg rs = Some data ->
  row ∈ incidents data ->
  exists r dl ul,
    r ∈ rs
    /\ row = [strftime_iso (timestamp r); dl; ul]
    /\ (dl = "OK" <-> ~ (download_speed r < DOWNLOAD_THRESHOLD cfg)%Q)
    /\ (ul = "OK" <-> ~ (upload_speed r < UPLOAD_THRESHOLD cfg)%Q)
    /\ ~ (dl = "OK" /\ ul = "OK").
Proof.
  intros H Hin. rewrite (report_incidents cfg rs data H) in Hin.
  apply list_elem_of_fmap in Hin. destruct Hin as (r & -> & Hr).
  apply list_elem_of_filter in Hr. destruct Hr as [Hb Hr].
  exists r, (display (download_speed r) (DOWNLOAD_THRESHOLD cfg)),
    (display (upload_speed r) (UPLOAD_THRESHOLD cfg)).
  split; [exact Hr |]. split; [reflexivity |].
  assert (Hdisp : forall v t, display v t = "OK" <-> ~ (v < t)%Q).
  { intros v t. split.
    - intros E Hlt. exact (display_below v t Hlt E).
    - intros Hge. unfold display. rewrite decide_False by exact Hge. reflexivity. }
  split; [apply Hdisp |]. split; [apply Hdisp |].
  intros [E1 E2]. apply Hdisp in E1, E2. destruct Hb; contradiction.
Qed.

Lemma incident_row_shape_witness :
  exists r dl ul,
    r ∈ [Samples.row3; Samples.row1]
    /\ ["2024-03-05 14:50:00"; "OK"; "250.00 Mbps"]
       = [strftime_iso (timestamp r); dl; ul]
    /\ (dl = "OK" <-> ~ (download_speed r < DOWNLOAD_THRESHOLD Samples.cfg0)%Q)
    /\ (ul = "OK" <-> ~ (upload_speed r < UPLOAD_THRESHOLD Samples.cfg0)%Q)
    /\ ~ (dl = "OK" /\ ul = "OK").
Proof.
  destruct (report_some Samples.cfg0 [Samples.row3; Samples.row1]
              ltac:(discriminate)) as [data Hd].
  apply (incident_row_shape Samples.cfg0 [Samples.row3; Samples.row1] data
           ["2024-03-05 14:50:00"; "OK"; "250.00 Mbps"] Hd).
  vm_compute in Hd. apply (inj Some) in Hd. subst data.
  apply list_elem_of_here.
Defined.

Lemma tables_pdf_elements (data : ReportData) (start_time end_time : datetime) :
  tables (pdf_elements data start_time end_time)
  = match incidents data with
    | [] => []
    | _ :: _ => [incidents_header :: incidents data]
    end.
Proof.
  unfold pdf_elements. cbv zeta. rewrite summary_loop.
  destruct (incidents data) as [| i more];
    rewrite !tables_app, tables_summary; reflexivity.
Qed.

(** The document of a report holds an incidents table exactly when one of
    the two slow counts of its summary is not zero. *)
Theorem pdf_table_iff_slow_counts (cfg : Config) (rs : list Row)
    (data : ReportData) (start_time end_time : datetime) :
  report_of_results cfg rs = Some data ->
  tables (pdf_elements data start_time end_time) = []
  <-> dict_get "Slow Download Incidents" (summary data) = Some (SInt 0)
      /\ dict_get "Slow Upload Incidents" (summary data) = Some (SInt 0).
Proof.
  intros H. rewrite tables_pdf_elements.
  destruct (report_slow_counts cfg rs data H) as [Ha Hb]. rewrite Ha, Hb.
  pose proof (report_incidents cfg rs data H) as Hi.
  apply (f_equal length) in Hi. rewrite length_map in Hi.
  destruct (breach_filter_lengths cfg rs) as (H1 & H2 & H3).
  split.
  - intros E. destruct (incidents data) as [| i more]; [| discriminate].
    cbn [length] in Hi. split; do 2 f_equal; lia.
  - intros [Ea Eb]. injection Ea as Ea. injection Eb as Eb.
    destruct (incidents data) as [| i more]; [reflexivity |].
    cbn [length] in Hi. lia.
Qed.

Lemma pdf_table_iff_slow_counts_witness :
  tables (pdf_elements Samples.incident_report (sub_hours Samples.noon 6)
            Samples.noon) = []
  <-> dict_get "Slow Download Incidents" (summary Samples.incident_report)
      = Some (SInt 0)
      /\ dict_get "Slow Upload Incidents" (summary Samples.incident_report)
         = Some (SInt 0).
Proof.
  apply (pdf_table_iff_slow_counts Samples.cfg0
           [mk_Row 1 Samples.noon (inject_Z 100) (inject_Z 50) (inject_Z 20)
              "1.2.3.4"]).
  vm_compute. reflexivity.
Defined.

Lemma report_averages (cfg : Config) (rs : list Row) (data : ReportData) :
  report_of_results cfg rs = Some data ->
  dict_get "Average Download Speed" (summary data)
  = Some (SStr (Py.fmt2 (py_mean (map download_speed rs)) +:+ " Mbps"))
  /\ dict_get "Average Upload Speed" (summary data)
     = Some (SStr (Py.fmt2 (py_mean (map upload_speed rs)) +:+ " Mbps"))
  /\ dict_get "Average Latency" (summary data)
     = Some (SStr (Py.fmt2 (py_mean (map latency rs)) +:+ " ms")).
Proof.
  destruct rs as [| r rs]; [discriminate |].
  intros H. cbv beta iota zeta delta [report_of_results] in H.
  apply (inj Some) in H. subst data. repeat split; reflexivity.
Qed.

Lemma py_mean_single (x : Q) : (py_mean [x] == x)%Q.
Proof. unfold py_mean, py_sum. cbn. field. Qed.

(** A window of one record: the averages are the record's own values, no
    IP change is reported, each slow count is 0 or 1 and the record is an
    incident exactly when it breaches a threshold. *)
Theorem single_record_report (cfg : Config) (r : Row) :
  exists data,
    report_of_results cfg [r] = Some data
    /\ dict_get "Average Download Speed" (summary data)
       = Some (SStr (Py.fmt2 (download_speed r) +:+ " Mbps"))
    /\ dict_get "Average Upload Speed" (summary data)
       = Some (SStr (Py.fmt2 (upload_speed r) +:+ " Mbps"))
    /\ dict_get "Average Latency" (summary data)
       = Some (SStr (Py.fmt2 (latency r) +:+ " ms"))
    /\ dict_get "IP Changes" (summary data) = Some (SStr "No")
    /\ dict_get "Slow Download Incidents" (summary data)
       = Some (SInt (if decide (download_speed r < DOWNLOAD_THRESHOLD cfg)%Q
                     then 1 else 0))
    /\ dict_get "Slow Upload Incidents" (summary data)
       = Some (SInt (if decide (upload_speed r < UPLOAD_THRESHOLD cfg)%Q
                     then 1 else 0))
    /\ incidents data
       = (if decide (breach cfg r) then [incident_row cfg r] else [])
    /\ raw_data data = [raw_row r].
Proof.
  destruct (report_some cfg [r] ltac:(discriminate)) as [data H].
  exists data. split; [exact H |].
  destruct (report_slow_counts cfg [r] data H) as [Ha Hb].
  destruct (report_averages cfg [r] data H) as (Hd & Hu & Hl).
  assert (Hip : size (list_to_set (map ip_address [r]) : gset string) = 1%nat)
    by (rewrite distinct_size; reflexivity).
  rewrite Hd, Hu, Hl, Ha, Hb, (report_incidents cfg [r] data H),
    (report_raw_data cfg [r] data H), (report_ip_changes cfg [r] data H), Hip.
  rewrite !filter_cons, !filter_nil. cbn [map].
  rewrite !(fmt2_comp _ _ (py_mean_single _)).
  repeat split; try reflexivity.
  - destruct (decide (download_speed r < DOWNLOAD_THRESHOLD cfg)%Q); reflexivity.
  - destruct (decide (upload_speed r < UPLOAD_THRESHOLD cfg)%Q); reflexivity.
  - destruct (decide (breach cfg r)); reflexivity.
Qed.

(** ** The measurement wrappers and the check cycle *)

Lemma lstrip_idem (s : string) : Py.lstrip (Py.lstrip s) = Py.lstrip s.
Proof.
  induction s as [| c s IH]; [reflexivity |].
  cbn [Py.lstrip]. destruct (Py.is_space c) eqn:E; [exact IH |].
  cbn [Py.lstrip]. rewrite E. reflexivity.
Qed.

Lemma rstrip_idem (s : string) : Py.rstrip (Py.rstrip s) = Py.rstrip s.
Proof.
  induction s as [| c s IH]; [reflexivity |].
  cbn [Py.rstrip]. destruct (Py.rstrip s) as [| d t] eqn:E.
  - destruct (Py.is_space c) eqn:Ec; [reflexivity |].
    cbn [Py.rstrip]. rewrite Ec. reflexivity.
  - change (Py.rstrip (String c (String d t))) with
      (match Py.rstrip (String d t) with
       | EmptyString =>
           if Py.is_space c then EmptyString else String c EmptyString
       | String _ _ as u => String c u
       end).
    rewrite IH. reflexivity.
Qed.

Lemma lstrip_rstrip (s : string) :
  Py.lstrip s = s -> Py.lstrip (Py.rstrip s) = Py.rstrip s.
Proof.
  destruct s as [| c s]; [reflexivity |].
  cbn [Py.lstrip]. destruct (Py.is_space c) eqn:E.
  - intros H. exfalso.
    assert (L : (String.length (Py.lstrip s) <= String.length s)%nat).
    { clear. induction s as [| d s IH]; cbn; [lia |].
      destruct (Py.is_space d); cbn; lia. }
    rewrite H in L. cbn in L. lia.
  - intros _. cbn [Py.rstrip].
    destruct (Py.rstrip s); rewrite ?E; cbn [Py.lstrip]; rewrite E; reflexivity.
Qed.

Lemma strip_idem (s : string) : Py.strip (Py.strip s) = Py.strip s.
Proof.
  unfold Py.strip.
  rewrite (lstrip_rstrip (Py.lstrip s) (lstrip_idem s)).
  apply rstrip_idem.
Qed.

(** [get_public_ip] never raises and makes one request.  An answer is
    returned stripped of leading and trailing whitespace (an answer of
    whitespace only gives the empty string, not the absent value) and
    nothing is logged; a failed request gives the absent value and one
    error event. *)
Theorem get_public_ip_outcome (w : World) :
  exists w',
    new_calls w w' = [CRequestsGet]
    /\ ((exists t,
           ip_get (env w) = Ok t
           /\ get_public_ip w = (Ok (Some (Py.strip t)), w')
           /\ Py.lstrip (Py.strip t) = Py.strip t
           /\ Py.rstrip (Py.strip t) = Py.strip t
           /\ log w' = log w)
        \/ (exists e,
           ip_get (env w) = Raise e
           /\ get_public_ip w = (Ok None, w')
           /\ log w' = (log w ++ [LogEvent ERROR
                          ("IP address check error: " +:+ exn_str e)])%list)).
Proof.
  unfold get_public_ip. run_monad.
  destruct (ip_get (env w)) as [t | e]; eexists.
  - split; cycle 1.
    + left. exists t. split; [reflexivity |]. split; [reflexivity |].
      split; [| split; [| reflexivity]].
      * unfold Py.strip. apply lstrip_rstrip, lstrip_idem.
      * unfold Py.strip. apply rstrip_idem.
    + apply new_calls_app; reflexivity.
  - split; cycle 1.
    + right. exists e. split; [reflexivity |]. split; reflexivity.
    + apply new_calls_app; reflexivity.
Qed.

Ltac split_oracles w :=
  repeat match goal with
         | |- context [match ?o (env w) with _ => _ end] =>
             let E := fresh "E" in
             destruct (o (env w)) as [[] | ?] eqn:E; cbn
         | |- context [match ?o (env w) with _ => _ end] =>
             let E := fresh "E" in
             destruct (o (env w)) as [? | ?] eqn:E; cbn
         end.

(** A check cycle whose collaborators all answer saves exactly one record:
    the provider's download and upload rates divided by 1,000,000, its
    ping, and the stripped response of the IP service, stamped with the
    store's clock; it logs the two informational events and nothing else. *)
Theorem check_cycle_saves_measurement (w : World) (d u : Q) (t : string) :
  st_init (env w) = Ok tt ->
  st_get_best_server (env w) = Ok tt ->
  st_download (env w) = Ok d ->
  st_upload (env w) = Ok u ->
  ip_get (env w) = Ok t ->
  db_connect (env w) = Ok tt ->
  db_insert (env w) = Ok tt ->
  exists w',
    perform_network_check w = (Ok tt, w')
    /\ rows w'
       = (rows w ++
          [mk_Row (next_id (rows w)) (clock w)
             (d / inject_Z 1000000)%Q (u / inject_Z 1000000)%Q
             (st_ping (env w)) (Py.strip t)])%list
    /\ new_events w w'
       = [LogEvent INFO "Results saved to database successfully";
          check_completed (d / inject_Z 1000000)%Q (u / inject_Z 1000000)%Q
            (st_ping (env w))]
    /\ new_calls w w'
       = [CSpeedtest; CGetBestServer; CDownload; CUpload; CRequestsGet;
          CDbConnect; CDbInsert]
    /\ files w' = files w /\ outbox w' = outbox w.
Proof.
  intros H1 H2 H3 H4 H5 H6 H7.
  unfold perform_network_check, perform_speed_test, get_public_ip,
    check_measurements, save_check_results, check_completed.
  run_monad. rewrite H1. cbn. rewrite H2. cbn. rewrite H3. cbn.
  rewrite H4. cbn. rewrite H5. cbn. rewrite H6. cbn. rewrite H7. cbn.
  eexists. split; [reflexivity |]. cbn.
  split; [reflexivity |]. split; [| split; [| split; reflexivity]].
  - apply new_events_app. cbn. rewrite <- app_assoc. reflexivity.
  - apply new_calls_app. cbn. rewrite <- !app_assoc. reflexivity.
Qed.

Lemma check_cycle_saves_measurement_witness :
  exists w',
    perform_network_check (Samples.world_of Samples.env_ok []) = (Ok tt, w')
    /\ rows w'
       = [mk_Row 1 Samples.noon
            (inject_Z 100000000 / inject_Z 1000000)%Q
            (inject_Z 50000000 / inject_Z 1000000)%Q
            (inject_Z 20) "1.2.3.4"]
    /\ new_events (Samples.world_of Samples.env_ok []) w'
       = [LogEvent INFO "Results saved to database successfully";
          check_completed (inject_Z 100000000 / inject_Z 1000000)%Q
            (inject_Z 50000000 / inject_Z 1000000)%Q (inject_Z 20)]
    /\ new_calls (Samples.world_of Samples.env_ok []) w'
       = [CSpeedtest; CGetBestServer; CDownload; CUpload; CRequestsGet;
          CDbConnect; CDbInsert]
    /\ files w' = ∅ /\ outbox w' = [].
Proof.
  apply (check_cycle_saves_measurement (Samples.world_of Samples.env_ok [])
           (inject_Z 100000000) (inject_Z 50000000) ("1.2.3.4" +:+ nl));
    reflexivity.
Defined.

(** A check cycle in which a measurement fails saves nothing and never
    calls the store.  The IP service is asked even when the speed test has
    failed.  The log takes each wrapper's own error and then the cycle's
    error, so two or three error events and no informational one. *)
Theorem check_cycle_discards_partial (w : World) :
  measurement_errors (env w) <> [] ->
  exists w',
    perform_network_check w = (Ok tt, w')
    /\ rows w' = rows w
    /\ new_events w w'
       = (measurement_errors (env w) ++
          [LogEvent ERROR
             "Network check failed - some measurements were not available"])%list
    /\ count_level INFO (new_events w w') = 0%nat
    /\ CRequestsGet ∈ new_calls w w'
    /\ Forall (fun c => ~ db_call c) (new_calls w w')
    /\ files w' = files w /\ outbox w' = outbox w.
Proof.
  unfold measurement_errors, speedtest_failure.
  unfold perform_network_check, perform_speed_test, get_public_ip,
    check_measurements, save_check_results.
  run_monad. split_oracles w; intros Hne; try congruence;
    (eexists; split; [reflexivity |]; cbn;
     split; [reflexivity |];
     split; [apply new_events_app; cbn; rewrite <- ?app_assoc; reflexivity |];
     split; [erewrite new_events_app
               by (cbn; rewrite <- ?app_assoc; reflexivity); reflexivity |];
     split; [erewrite new_calls_app
               by (cbn; rewrite <- ?app_assoc; reflexivity);
             repeat first [apply list_elem_of_here | apply list_elem_of_further] |];
     split; [erewrite new_calls_app
               by (cbn; rewrite <- ?app_assoc; reflexivity);
             repeat constructor; unfold db_call; intros [? | [? | ?]]; discriminate |];
     split; reflexivity).
Qed.

Lemma check_cycle_discards_partial_witness :
  exists w',
    perform_network_check (Samples.world_of Fixtures.env_offline [Samples.row1])
    = (Ok tt, w')
    /\ rows w' = [Samples.row1]
    /\ map lv (new_events
                 (Samples.world_of Fixtures.env_offline [Samples.row1]) w')
       = [ERROR; ERROR; ERROR].
Proof.
  destruct (check_cycle_discards_partial
              (Samples.world_of Fixtures.env_offline [Samples.row1]))
    as (w' & E & R & L & _).
  - vm_compute. discriminate.
  - exists w'. split; [exact E |]. split; [exact R |].
    rewrite L. reflexivity.
Defined.

(** ** The export file and the report cycle *)

Lemma append_loop {A} (xs acc : list A) :
  fold_left (fun out row => (out ++ [row])%list) xs acc = (acc ++ xs)%list.
Proof.
  revert acc. induction xs as [| x xs IH]; intros acc; cbn [fold_left].
  - rewrite app_nil_r. reflexivity.
  - rewrite IH, <- app_assoc. reflexivity.
Qed.

Lemma generate_csv_report_content (data : list (list cell)) (filename : string)
    (w : World) :
  csv_open (env w) = Ok tt ->
  generate_csv_report data filename w
  = (Ok tt,
     set_files (fun fs => <[filename := CsvFile (csv_header :: data)]> fs)
       (set_calls (fun cs => (cs ++ [CCsvOpen filename])%list) w)).
Proof.
  intros H. unfold generate_csv_report, bind, call. rewrite H.
  cbv beta iota zeta. rewrite append_loop. reflexivity.
Qed.

Lemma generate_csv_report_raise (data : list (list cell)) (filename : string)
    (w : World) (e : exn) :
  csv_open (env w) = Raise e ->
  generate_csv_report data filename w
  = (Raise e, set_calls (fun cs => (cs ++ [CCsvOpen filename])%list) w).
Proof.
  intros H. unfold generate_csv_report, bind, call. rewrite H. reflexivity.
Qed.

Lemma generate_pdf_report_raise (data : ReportData)
    (start_time end_time : datetime) (filename : string) (w : World) (e : exn) :
  pdf_build (env w) = Raise e ->
  generate_pdf_report data start_time end_time filename w
  = (Raise e, set_calls (fun cs => (cs ++ [CPdfBuild filename])%list) w).
Proof.
  intros H. unfold generate_pdf_report, bind, call. rewrite H. reflexivity.
Qed.

(** The export file: whatever the outcome, [generate_csv_report] logs
    nothing, leaves the store and the outbox alone and changes no file
    of another name; when it returns normally, the named file holds the
    header row and then every data row in the order given. *)
Theorem csv_export_content (data : list (list cell)) (filename : string)
    (w w' : World) (r : result unit) :
  generate_csv_report data filename w = (r, w') ->
  (forall f, f <> filename -> files w' !! f = files w !! f)
  /\ log w' = log w /\ rows w' = rows w /\ outbox w' = outbox w
  /\ (r = Ok tt ->
      files w' !! filename = Some (CsvFile (csv_header :: data))).
Proof.
  intros E.
  destruct (csv_open (env w)) as [[] | e] eqn:Ho.
  - rewrite (generate_csv_report_content data filename w Ho) in E.
    injection E as <- <-.
    cbn [log rows outbox files set_files set_calls].
    split; [intros f Hf; apply lookup_insert_ne; congruence |].
    repeat split; try reflexivity.
    intros _. apply lookup_insert_eq.
  - rewrite (generate_csv_report_raise data filename w e Ho) in E.
    injection E as <- <-.
    cbn [log rows outbox files set_calls].
    repeat split; try reflexivity. discriminate.
Qed.

Lemma csv_export_content_witness :
  exists w',
    generate_csv_report (raw_data Samples.quiet_report) "network_data_6h.csv"
      (Samples.world_of Samples.env_ok []) = (Ok tt, w')
    /\ files w' !! "network_data_6h.csv"
       = Some (CsvFile (csv_header :: raw_data Samples.quiet_report)).
Proof.
  pose proof (generate_csv_report_content (raw_data Samples.quiet_report)
                "network_data_6h.csv" (Samples.world_of Samples.env_ok [])
                eq_refl) as E.
  eexists. split; [exact E |].
  apply (csv_export_content _ _ _ _ _ E). reflexivity.
Defined.

Lemma smtp_session_ok (msg : Message) (w : World) :
  smtp_connect (env w) = Ok tt ->
  smtp_starttls (env w) = Ok tt ->
  smtp_login (env w) = Ok tt ->
  smtp_send (env w) = Ok tt ->
  smtp_session msg w
  = (Ok tt,
     set_outbox (fun out => (out ++ [msg])%list)
       (set_calls (fun cs =>
            ((((cs ++ [CSmtp]) ++ [CStarttls]) ++ [CLogin]) ++ [CSendMessage])%list)
          w)).
Proof.
  intros H1 H2 H3 H4. unfold smtp_session, bind, call. cbn.
  rewrite H1, H2, H3, H4. reflexivity.
Qed.

Lemma os_remove_ok (filename : string) (c : file_content) (w : World) :
  files w !! filename = Some c ->
  fs_remove (env w) filename = Ok tt ->
  os_remove filename w
  = (Ok tt,
     set_files (fun fs => delete filename fs)
       (set_calls (fun cs => (cs ++ [COsRemove filename])%list) w)).
Proof.
  intros H1 H2. unfold os_remove, bind, get. cbv beta iota.
  rewrite H1. unfold bind, call. rewrite H2. reflexivity.
Qed.

Lemma os_remove_raise (filename : string) (c : file_content) (w : World)
    (e : exn) :
  files w !! filename = Some c ->
  fs_remove (env w) filename = Raise e ->
  os_remove filename w
  = (Raise e, set_calls (fun cs => (cs ++ [COsRemove filename])%list) w).
Proof.
  intros H1 H2. unfold os_remove, bind, get. cbv beta iota.
  rewrite H1. unfold bind, call. rewrite H2. reflexivity.
Qed.

Lemma string_append_assoc (a b c : string) :
  (a +:+ b) +:+ c = a +:+ (b +:+ c).
Proof.
  induction a as [| x a IH]; [reflexivity |].
  change (String x ((a +:+ b) +:+ c) = String x (a +:+ (b +:+ c))).
  rewrite IH. reflexivity.
Qed.

Lemma string_append_nil_r (a : string) : a +:+ "" = a.
Proof.
  induction a as [| x a IH]; [reflexivity |].
  change (String x (a +:+ "") = String x a). rewrite IH. reflexivity.
Qed.

Lemma body_loop (kvs : list (string * sval)) (body : string) :
  fold_left
    (fun body kv =>
       body +:+ "• " +:+ fst kv +:+ ": " +:+ sval_str (snd kv) +:+ nl)
    kvs body
  = body +:+ summary_text kvs.
Proof.
  revert body. induction kvs as [| kv kvs IH]; intros body.
  - cbn [fold_left summary_text foldr]. rewrite string_append_nil_r. reflexivity.
  - cbn [fold_left summary_text foldr]. rewrite IH.
    rewrite !string_append_assoc. reflexivity.
Qed.

(** The report cycle up to the cleanup, when the data is there and every
    collaborator up to the transport answers. *)
Lemma report_cycle_until_cleanup (cfg : Config) (hours : Z) (w w1 : World)
    (data : ReportData) :
  get_report_data cfg hours w = (Ok (Some data), w1) ->
  pdf_build (env w) = Ok tt ->
  csv_open (env w) = Ok tt ->
  smtp_accepts (env w) ->
  exists ws,
    send_email_report cfg hours w
    = try_except
        (os_remove (pdf_name hours) ;; os_remove (csv_name hours))
        (fun e => logging ERROR ("Error sending email report: " +:+ exn_str e))
        ws
    /\ env ws = env w /\ rows ws = rows w
    /\ log ws = (log w ++ [report_sent hours])%list
    /\ outbox ws
       = (outbox w ++
          [report_message cfg data (sub_hours (clock w) hours) (clock w) hours])%list
    /\ files ws
       = <[csv_name hours := CsvFile (csv_header :: raw_data data)]>
           (<[pdf_name hours :=
                PdfFile (pdf_elements data (sub_hours (clock w) hours) (clock w))]>
              (files w))
    /\ calls ws
       = (calls w1 ++
          [CPdfBuild (pdf_name hours); CCsvOpen (csv_name hours);
           CSmtp; CStarttls; CLogin; CSendMessage])%list.
Proof.
  intros Hdata Hpdf Hcsv (Hs1 & Hs2 & Hs3 & Hs4).
  destruct (get_report_data_frame cfg hours w w1 (Some data) Hdata)
    as (Henv & _ & Hrows & Hfiles & Hout & (errs & Hlog & _ & _ & Herrs) & _).
  rewrite (Herrs ltac:(discriminate)), app_nil_r in Hlog.
  rewrite <- Henv in Hpdf, Hcsv, Hs1, Hs2, Hs3, Hs4.
  unfold send_email_report, try_except.
  erewrite bind_ok by reflexivity. cbv beta zeta.
  erewrite bind_ok by exact Hdata. cbv beta iota zeta.
  erewrite bind_ok by (apply generate_pdf_report_ok; exact Hpdf).
  erewrite bind_ok by (apply generate_csv_report_content; exact Hcsv).
  erewrite bind_ok.
  2:{ apply read_file_ok. cbn [files set_files set_calls].
      rewrite lookup_insert_ne by apply report_filenames_differ.
      apply lookup_insert_eq. }
  erewrite bind_ok.
  2:{ apply read_file_ok. cbn [files set_files set_calls].
      apply lookup_insert_eq. }
  erewrite bind_ok by (apply smtp_session_ok; assumption).
  erewrite bind_ok by reflexivity.
  eexists. split; [reflexivity |].
  cbn [env rows log outbox files calls set_log set_rows set_files set_outbox
       set_calls].
  rewrite Hlog, Hout, Hfiles, Hrows, Henv.
  split; [reflexivity |]. split; [reflexivity |]. split; [reflexivity |].
  split.
  - unfold report_message. rewrite body_loop, !string_append_assoc.
    do 2 f_equal.
  - split; [reflexivity |]. rewrite <- !app_assoc. reflexivity.
Qed.

Lemma csv_name_ne_pdf_name (hours : Z) : csv_name hours <> pdf_name hours.
Proof. apply report_filenames_differ. Qed.

Lemma pdf_name_ne_csv_name (hours : Z) : pdf_name hours <> csv_name hours.
Proof. intros E. symmetry in E. exact (csv_name_ne_pdf_name hours E). Qed.

Ltac names_differ :=
  first [apply csv_name_ne_pdf_name | apply pdf_name_ne_csv_name].

(** A report cycle in which every collaborator answers sends exactly one
    message: the fixed subject, the configured sender and recipient, the
    text body with the period line and one line per summary entry, then
    the document and the export as attachments.  It logs one informational
    event, removes both attachment files and leaves every other file and
    the store as they were. *)
Theorem report_cycle_delivers (cfg : Config) (hours : Z) (w w1 : World)
    (data : ReportData) :
  get_report_data cfg hours w = (Ok (Some data), w1) ->
  pdf_build (env w) = Ok tt ->
  csv_open (env w) = Ok tt ->
  smtp_accepts (env w) ->
  fs_remove (env w) (pdf_name hours) = Ok tt ->
  fs_remove (env w) (csv_name hours) = Ok tt ->
  exists w',
    send_email_report cfg hours w = (Ok tt, w')
    /\ outbox w'
       = (outbox w ++
          [report_message cfg data (sub_hours (clock w) hours) (clock w) hours])%list
    /\ new_events w w' = [report_sent hours]
    /\ files w' !! pdf_name hours = None
    /\ files w' !! csv_name hours = None
    /\ (forall f, f <> pdf_name hours -> f <> csv_name hours ->
          files w' !! f = files w !! f)
    /\ rows w' = rows w.
Proof.
  intros Hdata Hpdf Hcsv Hsmtp Hr1 Hr2.
  destruct (report_cycle_until_cleanup cfg hours w w1 data Hdata Hpdf Hcsv Hsmtp)
    as (ws & E & Henv & Hrows & Hlog & Hout & Hfiles & _).
  rewrite E. unfold try_except.
  erewrite bind_ok.
  2:{ eapply os_remove_ok.
      - rewrite Hfiles.
        rewrite lookup_insert_ne by names_differ.
        apply lookup_insert_eq.
      - rewrite Henv. exact Hr1. }
  erewrite os_remove_ok.
  2:{ cbn [files set_files set_calls]. rewrite Hfiles.
      rewrite lookup_delete_ne by names_differ.
      apply lookup_insert_eq. }
  2:{ cbn [env set_files set_calls]. rewrite Henv. exact Hr2. }
  eexists. split; [reflexivity |].
  cbn [outbox log files rows set_files set_calls].
  split; [exact Hout |]. split; [apply new_events_app; exact Hlog |].
  rewrite Hfiles. split; [| split; [| split; [| exact Hrows]]].
  - rewrite lookup_delete_ne by names_differ.
    apply lookup_delete_eq.
  - apply lookup_delete_eq.
  - intros f Hf1 Hf2.
    rewrite !lookup_delete_ne, !lookup_insert_ne by congruence. reflexivity.
Qed.

Lemma report_cycle_delivers_witness :
  exists w',
    send_email_report Samples.cfg0 6
      (Samples.world_of Samples.env_ok [Samples.row1]) = (Ok tt, w')
    /\ length (outbox w') = 1%nat
    /\ new_events (Samples.world_of Samples.env_ok [Samples.row1]) w'
       = [report_sent 6]
    /\ files w' !! pdf_name 6 = None
    /\ files w' !! csv_name 6 = None.
Proof.
  destruct (get_report_data Samples.cfg0 6
              (Samples.world_of Samples.env_ok [Samples.row1]))
    as [[[data |] | e] w1] eqn:E; try (vm_compute in E; discriminate).
  destruct (report_cycle_delivers Samples.cfg0 6
              (Samples.world_of Samples.env_ok [Samples.row1]) w1 data E
              eq_refl eq_refl
              (conj eq_refl (conj eq_refl (conj eq_refl eq_refl)))
              eq_refl eq_refl)
    as (w' & E' & O & L & F1 & F2 & _).
  exists w'. split; [exact E' |]. split; [rewrite O; reflexivity |].
  split; [exact L |]. split; [exact F1 | exact F2].
Defined.

(** When the message has left and a removal then fails, the failure is
    caught: the message stays sent, the success event is followed by one
    error event, and the export file is still there; the document is still
    there too when its own removal was the one that failed, in which case
    the removal of the export is never attempted. *)
Theorem report_cycle_cleanup_fails (cfg : Config) (hours : Z) (w w1 : World)
    (data : ReportData) (e : exn) :
  get_report_data cfg hours w = (Ok (Some data), w1) ->
  pdf_build (env w) = Ok tt ->
  csv_open (env w) = Ok tt ->
  smtp_accepts (env w) ->
  fs_remove (env w) (pdf_name hours) = Raise e
  \/ (fs_remove (env w) (pdf_name hours) = Ok tt
      /\ fs_remove (env w) (csv_name hours) = Raise e) ->
  exists w',
    send_email_report cfg hours w = (Ok tt, w')
    /\ outbox w'
       = (outbox w ++
          [report_message cfg data (sub_hours (clock w) hours) (clock w) hours])%list
    /\ new_events w w'
       = [report_sent hours;
          LogEvent ERROR ("Error sending email report: " +:+ exn_str e)]
    /\ is_Some (files w' !! csv_name hours)
    /\ (fs_remove (env w) (pdf_name hours) = Raise e ->
        is_Some (files w' !! pdf_name hours)
        /\ COsRemove (csv_name hours) ∉ new_calls w w')
    /\ (fs_remove (env w) (pdf_name hours) = Ok tt ->
        files w' !! pdf_name hours = None).
Proof.
  intros Hdata Hpdf Hcsv Hsmtp Hrm.
  destruct (report_cycle_until_cleanup cfg hours w w1 data Hdata Hpdf Hcsv Hsmtp)
    as (ws & E & Henv & Hrows & Hlog & Hout & Hfiles & Hcalls).
  destruct (get_report_data_frame cfg hours w w1 (Some data) Hdata)
    as (_ & _ & _ & _ & _ & _ & (cs & Hcs & Hstore)).
  rewrite E. unfold try_except.
  assert (Hp : files ws !! pdf_name hours
               = Some (PdfFile (pdf_elements data (sub_hours (clock w) hours)
                                  (clock w)))).
  { rewrite Hfiles.
    rewrite lookup_insert_ne by names_differ.
    apply lookup_insert_eq. }
  destruct Hrm as [Hr1 | [Hr1 Hr2]].
  - erewrite bind_raise.
    2:{ eapply os_remove_raise; [exact Hp | rewrite Henv; exact Hr1]. }
    eexists. split; [reflexivity |].
    cbn [outbox log files calls set_log set_files set_calls].
    split; [exact Hout |].
    split; [apply new_events_app; cbn [log set_log set_files set_calls];
            rewrite Hlog, <- app_assoc; reflexivity |].
    split; [rewrite Hfiles, lookup_insert_eq; eexists; reflexivity |].
    split.
    + intros _. split; [rewrite Hp; eexists; reflexivity |].
      erewrite new_calls_app
        by (cbn [calls set_log set_calls]; rewrite Hcalls, Hcs, <- !app_assoc;
            reflexivity).
      intros Hin. rewrite !elem_of_app in Hin.
      destruct Hin as [Hin | [Hin | Hin]].
      * eapply Forall_forall in Hstore; [| exact Hin].
        destruct Hstore; discriminate.
      * repeat (apply elem_of_cons in Hin; destruct Hin as [Hin | Hin];
                [discriminate |]).
        apply elem_of_nil in Hin. exact Hin.
      * apply elem_of_cons in Hin. destruct Hin as [Hin | Hin].
        -- apply (f_equal (fun c => match c with
                                     | COsRemove f => f
                                     | _ => EmptyString
                                     end)) in Hin.
           exact (csv_name_ne_pdf_name hours Hin).
        -- apply elem_of_nil in Hin. exact Hin.
    + intros Hok. congruence.
  - erewrite bind_ok.
    2:{ eapply os_remove_ok; [exact Hp | rewrite Henv; exact Hr1]. }
    erewrite os_remove_raise.
    2:{ cbn [files set_files set_calls]. rewrite Hfiles.
        rewrite lookup_delete_ne by names_differ.
        apply lookup_insert_eq. }
    2:{ cbn [env set_files set_calls]. rewrite Henv. exact Hr2. }
    eexists. split; [reflexivity |].
    cbn [outbox log files calls set_log set_files set_calls].
    split; [exact Hout |].
    split; [apply new_events_app; cbn [log set_log set_files set_calls];
            rewrite Hlog, <- app_assoc; reflexivity |].
    split.
    + rewrite Hfiles.
      rewrite lookup_delete_ne by names_differ.
      rewrite lookup_insert_eq. eexists. reflexivity.
    + split; [intros Hbad; congruence |].
      intros _. apply lookup_delete_eq.
Qed.

Lemma report_cycle_cleanup_fails_witness :
  exists w',
    send_email_report Samples.cfg0 6
      (Samples.world_of Samples.env_remove_denied [Samples.row1]) = (Ok tt, w')
    /\ length (outbox w') = 1%nat
    /\ new_events (Samples.world_of Samples.env_remove_denied [Samples.row1]) w'
       = [report_sent 6;
          LogEvent ERROR "Error sending email report: Permission denied"]
    /\ is_Some (files w' !! csv_name 6)
    /\ is_Some (files w' !! pdf_name 6).
Proof.
  destruct (get_report_data Samples.cfg0 6
              (Samples.world_of Samples.env_remove_denied [Samples.row1]))
    as [[[data |] | e] w1] eqn:E; try (vm_compute in E; discriminate).
  destruct (report_cycle_cleanup_fails Samples.cfg0 6
              (Samples.world_of Samples.env_remove_denied [Samples.row1]) w1 data
              (Exception "Permission denied") E eq_refl eq_refl
              (conj eq_refl (conj eq_refl (conj eq_refl eq_refl)))
              (or_introl eq_refl))
    as (w' & E' & O & L & F1 & F2 & _).
  exists w'. split; [exact E' |]. split; [rewrite O; reflexivity |].
  split; [exact L |]. split; [exact F1 |]. apply (F2 eq_refl).
Defined.

(** The report cycle when an attachment file cannot be written. *)
Lemma report_cycle_generation_raises (cfg : Config) (hours : Z) (w w1 : World)
    (data : ReportData) (e : exn) :
  get_report_data cfg hours w = (Ok (Some data), w1) ->
  pdf_build (env w) = Raise e
  \/ (pdf_build (env w) = Ok tt /\ csv_open (env w) = Raise e) ->
  exists w',
    send_email_report cfg hours w = (Ok tt, w')
    /\ new_events w w'
       = [LogEvent ERROR ("Error sending email report: " +:+ exn_str e)]
    /\ outbox w' = outbox w
    /\ rows w' = rows w
    /\ (exists cs, new_calls w w' = cs /\ Forall (fun c => ~ smtp_call c) cs)
    /\ (pdf_build (env w) = Ok tt ->
        files w' !! pdf_name hours
        = Some (PdfFile (pdf_elements data (sub_hours (clock w) hours) (clock w)))).
Proof.
  intros Hdata Hgen.
  destruct (get_report_data_frame cfg hours w w1 (Some data) Hdata)
    as (Henv & _ & Hrows & Hfiles & Hout & (errs & Hlog & _ & _ & Herrs)
        & (cs & Hcs & Hstore)).
  rewrite (Herrs ltac:(discriminate)), app_nil_r in Hlog.
  assert (Hns : forall c, store_call c -> ~ smtp_call c).
  { intros c [-> | ->] [H | [H | [H | H]]]; discriminate. }
  unfold send_email_report, try_except.
  erewrite bind_ok by reflexivity. cbv beta zeta.
  erewrite bind_ok by exact Hdata. cbv beta iota zeta.
  destruct Hgen as [Hp | [Hp Hc]].
  - erewrite bind_raise
      by (apply generate_pdf_report_raise; rewrite Henv; exact Hp).
    eexists. split; [reflexivity |].
    cbn [log outbox rows files calls set_log set_files set_calls].
    split; [apply new_events_app; cbn [log set_log set_calls];
            rewrite Hlog; reflexivity |].
    split; [exact Hout |]. split; [exact Hrows |]. split.
    + eexists. split; [reflexivity |].
      erewrite new_calls_app
        by (cbn [calls set_log set_calls]; rewrite Hcs, <- app_assoc;
            reflexivity).
      apply Forall_app. split.
      * eapply Forall_impl; [exact Hstore | exact Hns].
      * constructor; [| constructor].
        intros [H | [H | [H | H]]]; discriminate.
    + congruence.
  - erewrite bind_ok
      by (apply generate_pdf_report_ok; rewrite Henv; exact Hp).
    erewrite bind_raise
      by (apply generate_csv_report_raise; cbn [env set_files set_calls];
          rewrite Henv; exact Hc).
    eexists. split; [reflexivity |].
    cbn [log outbox rows files calls set_log set_files set_calls].
    split; [apply new_events_app; cbn [log set_log set_files set_calls];
            rewrite Hlog; reflexivity |].
    split; [exact Hout |]. split; [exact Hrows |]. split.
    + eexists. split; [reflexivity |].
      erewrite new_calls_app
        by (cbn [calls set_log set_files set_calls];
            rewrite Hcs, <- !app_assoc; reflexivity).
      apply Forall_app. split.
      * eapply Forall_impl; [exact Hstore | exact Hns].
      * constructor; [| constructor; [| constructor]];
          intros [H | [H | [H | H]]]; discriminate.
    + intros _. apply lookup_insert_eq.
Qed.

(** When the document or the export cannot be written, the report cycle
    catches the failure: it returns normally with one error event, no
    call to the transport and no message.  After a failed export the
    document, already written, is still on disk. *)
Theorem report_cycle_generation_fails (cfg : Config) (hours : Z) (w w1 : World)
    (data : ReportData) (e : exn) :
  get_report_data cfg hours w = (Ok (Some data), w1) ->
  pdf_build (env w) = Raise e
  \/ (pdf_build (env w) = Ok tt /\ csv_open (env w) = Raise e) ->
  exists w',
    send_email_report cfg hours w = (Ok tt, w')
    /\ new_events w w'
       = [LogEvent ERROR ("Error sending email report: " +:+ exn_str e)]
    /\ outbox w' = outbox w
    /\ Forall (fun c => ~ smtp_call c) (new_calls w w')
    /\ (pdf_build (env w) = Ok tt ->
        files w' !! pdf_name hours
        = Some (PdfFile (pdf_elements data (sub_hours (clock w) hours) (clock w)))).
Proof.
  intros Hdata Hgen.
  destruct (report_cycle_generation_raises cfg hours w w1 data e Hdata Hgen)
    as (w' & E & L & O & _ & (cs & <- & Hcs) & F).
  exists w'. auto.
Qed.

Lemma report_cycle_generation_fails_witness :
  exists w',
    send_email_report Samples.cfg0 6
      (Samples.world_of Fixtures.env_disk_full [Samples.row1]) = (Ok tt, w')
    /\ new_events (Samples.world_of Fixtures.env_disk_full [Samples.row1]) w'
       = [LogEvent ERROR "Error sending email report: No space left on device"]
    /\ outbox w' = []
    /\ is_Some (files w' !! pdf_name 6).
Proof.
  destruct (get_report_data Samples.cfg0 6
              (Samples.world_of Fixtures.env_disk_full [Samples.row1]))
    as [[[data |] | e] w1] eqn:E; try (vm_compute in E; discriminate).
  destruct (report_cycle_generation_fails Samples.cfg0 6
              (Samples.world_of Fixtures.env_disk_full [Samples.row1]) w1 data
              (Exception "No space left on device") E
              (or_intror (conj eq_refl eq_refl)))
    as (w' & E' & L & O & _ & F).
  exists w'. split; [exact E' |]. split; [exact L |]. split; [exact O |].
  rewrite (F eq_refl). eexists. reflexivity.
Defined.

(** ** What the cycles leave alone *)

Lemma get_report_data_returns (cfg : Config) (hours : Z) (w : World) :
  exists r w1, get_report_data cfg hours w = (Ok r, w1).
Proof.
  destruct (get_report_data_cases cfg hours w)
    as [(e & _ & E) | [(e & _ & _ & E) | (_ & _ & E)]];
    rewrite E; eauto.
Qed.

Section Preserves.

Context (R : World -> World -> Prop) `{!PreOrder R}.

Lemma preserves_ret {A} (a : A) : preserves R (ret a).
Proof. intros w r w' [= <- <-]. reflexivity. Qed.

Lemma preserves_raise {A} (e : exn) : preserves R (raise (A := A) e).
Proof. intros w r w' [= <- <-]. reflexivity. Qed.

Lemma preserves_get {A} (f : World -> A) : preserves R (get f).
Proof. intros w r w' [= <- <-]. reflexivity. Qed.

Lemma preserves_bind {A B} (m : M A) (k : A -> M B) :
  preserves R m -> (forall a, preserves R (k a)) -> preserves R (bind m k).
Proof.
  intros Hm Hk w r w' H. unfold bind in H.
  destruct (m w) as [[a | e] w1] eqn:E.
  - transitivity w1; [exact (Hm _ _ _ E) | exact (Hk a _ _ _ H)].
  - injection H as <- <-. exact (Hm _ _ _ E).
Qed.

Lemma preserves_try_except {A} (body : M A) (handler : exn -> M A) :
  preserves R body -> (forall e, preserves R (handler e)) ->
  preserves R (try_except body handler).
Proof.
  intros Hb Hh w r w' H. unfold try_except in H.
  destruct (body w) as [[a | e] w1] eqn:E.
  - injection H as <- <-. exact (Hb _ _ _ E).
  - transitivity w1; [exact (Hb _ _ _ E) | exact (Hh e _ _ _ H)].
Qed.

Lemma preserves_call {A} (c : ext_call) (f : Env -> result A) :
  (forall g w, R w (set_calls g w)) -> preserves R (call c f).
Proof. intros Hc w r w' [= <- <-]. apply Hc. Qed.

Lemma preserves_logging (l : level) (msg : string) :
  (forall g w, R w (set_log g w)) -> preserves R (logging l msg).
Proof. intros Hl w r w' [= <- <-]. apply Hl. Qed.

Lemma preserves_modify (f : World -> World) :
  (forall w, R w (f w)) -> preserves R (modify f).
Proof. intros Hf w r w' [= <- <-]. apply Hf. Qed.

End Preserves.

#[global] Instance report_frame_preorder (hours : Z) :
  PreOrder (report_frame hours).
Proof.
  split.
  - intros w. repeat split; reflexivity.
  - intros a b c (E1 & C1 & R1 & F1) (E2 & C2 & R2 & F2).
    repeat split; try congruence.
    intros f H1 H2. rewrite (F2 f H1 H2). apply F1; assumption.
Qed.

Lemma report_frame_calls (hours : Z) g w : report_frame hours w (set_calls g w).
Proof. repeat split; reflexivity. Qed.

Lemma report_frame_log (hours : Z) g w : report_frame hours w (set_log g w).
Proof. repeat split; reflexivity. Qed.

Lemma report_frame_outbox (hours : Z) g w : report_frame hours w (set_outbox g w).
Proof. repeat split; reflexivity. Qed.

Lemma report_frame_get_report_data (cfg : Config) (hours : Z) :
  preserves (report_frame hours) (get_report_data cfg hours).
Proof.
  intros w r w' H.
  destruct (get_report_data_returns cfg hours w) as (r0 & w1 & E).
  rewrite E in H. injection H as <- <-.
  destruct (get_report_data_frame cfg hours w w1 r0 E)
    as (Henv & Hclock & Hrows & Hfiles & _).
  repeat split; try assumption. intros f _ _. rewrite Hfiles. reflexivity.
Qed.

Ltac frame_bind := apply preserves_bind; [typeclasses eauto | |].

Ltac report_frame_step :=
  first [ apply preserves_get; typeclasses eauto
        | apply preserves_ret; typeclasses eauto
        | apply preserves_raise; typeclasses eauto
        | apply preserves_call; apply report_frame_calls
        | apply preserves_logging; apply report_frame_log ].

Lemma report_frame_os_remove (hours : Z) (name : string) :
  name = pdf_name hours \/ name = csv_name hours ->
  preserves (report_frame hours) (os_remove name).
Proof.
  intros Hname. unfold os_remove.
  frame_bind; [report_frame_step |].
  intros fs. destruct (fs !! name); [| report_frame_step].
  frame_bind; [report_frame_step |].
  intros _. apply preserves_modify. intros w.
  repeat split; try reflexivity. intros other H1 H2.
  cbn [files set_files]. apply lookup_delete_ne.
  destruct Hname; congruence.
Qed.

Lemma report_frame_read_file (hours : Z) (name : string) :
  preserves (report_frame hours) (read_file name).
Proof.
  unfold read_file. frame_bind; [report_frame_step |].
  intros fs. destruct (fs !! name); report_frame_step.
Qed.

Lemma report_frame_write (hours : Z) (name : string) (c : file_content) :
  name = pdf_name hours \/ name = csv_name hours ->
  forall w, report_frame hours w (set_files (fun fs => <[name := c]> fs) w).
Proof.
  intros Hname w. repeat split; try reflexivity. intros other H1 H2.
  cbn [files set_files]. apply lookup_insert_ne.
  destruct Hname; congruence.
Qed.

(** In every world the report cycle leaves the collaborators, the clock
    and the store as they were, and changes no file other than its two
    attachment files. *)
Lemma send_email_report_frame (cfg : Config) (hours : Z) :
  preserves (report_frame hours) (send_email_report cfg hours).
Proof.
  unfold send_email_report.
  apply preserves_try_except;
    [typeclasses eauto | | intros e; report_frame_step].
  frame_bind; [report_frame_step |].
  intros end_time. cbv zeta.
  frame_bind; [apply report_frame_get_report_data |].
  intros [data |]; [| report_frame_step].
  frame_bind.
  { unfold generate_pdf_report.
    frame_bind; [report_frame_step |].
    intros _. apply preserves_modify.
    apply report_frame_write. left. reflexivity. }
  intros _. frame_bind.
  { unfold generate_csv_report.
    frame_bind; [report_frame_step |].
    intros _. apply preserves_modify.
    apply report_frame_write. right. reflexivity. }
  intros _. frame_bind; [apply report_frame_read_file |].
  intros pdf. frame_bind; [apply report_frame_read_file |].
  intros csv. frame_bind.
  { unfold smtp_session.
    repeat (frame_bind; [report_frame_step | intros _]).
    apply preserves_modify. apply report_frame_outbox. }
  intros _. frame_bind; [report_frame_step |].
  intros _. frame_bind.
  { apply report_frame_os_remove. left. reflexivity. }
  intros _. apply report_frame_os_remove. right. reflexivity.
Qed.

Lemma smtp_cases (en : Env) :
  smtp_accepts en \/ exists e, smtp_raises en e.
Proof.
  unfold smtp_accepts, smtp_raises.
  destruct (smtp_connect en) as [[] | e1]; [| right; exists e1; auto].
  destruct (smtp_starttls en) as [[] | e2]; [| right; exists e2; auto].
  destruct (smtp_login en) as [[] | e3]; [| right; exists e3; auto 6].
  destruct (smtp_send en) as [[] | e4]; [| right; exists e4; auto 8].
  left. auto.
Qed.

Lemma report_cycle_no_data (cfg : Config) (hours : Z) (w w1 : World) :
  get_report_data cfg hours w = (Ok None, w1) ->
  send_email_report cfg hours w
  = (Ok tt,
     set_log (fun evs =>
         (evs ++ [LogEvent WARNING
            ("No data available for the past " +:+ Py.str_of_Z hours
               +:+ " hours")])%list) w1).
Proof.
  intros H. unfold send_email_report, try_except.
  erewrite bind_ok by reflexivity. cbv beta zeta.
  erewrite bind_ok by exact H. reflexivity.
Qed.

(** The two removals under the handler of the report cycle: whatever
    happens, nothing but error events is logged and neither the outbox nor
    the store changes. *)
Lemma cleanup_frame (a b : string) (ws : World) :
  exists w' errs,
    try_except (os_remove a ;; os_remove b)
      (fun e => logging ERROR ("Error sending email report: " +:+ exn_str e)) ws
    = (Ok tt, w')
    /\ outbox w' = outbox ws /\ rows w' = rows ws
    /\ log w' = (log ws ++ errs)%list
    /\ count_level INFO errs = 0%nat.
Proof.
  unfold try_except, os_remove, bind, get, call, modify, raise, logging.
  cbv beta iota.
  destruct (files ws !! a) as [ca |] eqn:Ea; cbv beta iota;
    [| do 2 eexists; split; [reflexivity |]; cbn [outbox rows log set_log];
       repeat split; reflexivity].
  cbn [env set_calls].
  destruct (fs_remove (env ws) a) as [[] | ea] eqn:Ra; cbv beta iota;
    [| do 2 eexists; split; [reflexivity |];
       cbn [outbox rows log set_log set_calls]; repeat split; reflexivity].
  cbn [files set_files set_calls].
  destruct (delete a (files ws) !! b) as [cb |] eqn:Eb; cbv beta iota;
    [| do 2 eexists; split; [reflexivity |];
       cbn [outbox rows log set_log set_files set_calls];
       repeat split; reflexivity].
  cbn [env set_files set_calls].
  destruct (fs_remove (env ws) b) as [[] | eb] eqn:Rb; cbv beta iota.
  - exists (set_files (fun fs => delete b fs)
              (set_calls (fun cs => (cs ++ [COsRemove b])%list)
                 (set_files (fun fs => delete a fs)
                    (set_calls (fun cs => (cs ++ [COsRemove a])%list) ws)))), [].
    split; [reflexivity |]. cbn [outbox rows log set_files set_calls].
    rewrite app_nil_r. repeat split; reflexivity.
  - do 2 eexists. split; [reflexivity |].
    cbn [outbox rows log set_log set_files set_calls]. repeat split; reflexivity.
Qed.

(** In every world the report cycle returns normally, leaves the store as
    it was and sends at most one message; it logs the success event at
    most once, and only after a message has left: the event is then the
    first one of the cycle. *)
Theorem report_cycle_event_matches_delivery (cfg : Config) (hours : Z)
    (w : World) :
  exists w',
    send_email_report cfg hours w = (Ok tt, w')
    /\ rows w' = rows w
    /\ (outbox w' = outbox w
        \/ exists msg, outbox w' = (outbox w ++ [msg])%list)
    /\ (count_level INFO (new_events w w') <= 1)%nat
    /\ (count_level INFO (new_events w w') = 1%nat ->
        (exists msg, outbox w' = (outbox w ++ [msg])%list)
        /\ head (new_events w w') = Some (report_sent hours)).
Proof.
  assert (Hquiet : forall w',
            send_email_report cfg hours w = (Ok tt, w') ->
            rows w' = rows w -> outbox w' = outbox w ->
            count_level INFO (new_events w w') = 0%nat ->
            exists w',
              send_email_report cfg hours w = (Ok tt, w')
              /\ rows w' = rows w
              /\ (outbox w' = outbox w
                  \/ exists msg, outbox w' = (outbox w ++ [msg])%list)
              /\ (count_level INFO (new_events w w') <= 1)%nat
              /\ (count_level INFO (new_events w w') = 1%nat ->
                  (exists msg, outbox w' = (outbox w ++ [msg])%list)
                  /\ head (new_events w w') = Some (report_sent hours))).
  { intros w' E R O I. exists w'.
    split; [exact E |]. split; [exact R |]. split; [left; exact O |].
    rewrite I. split; [lia | discriminate]. }
  destruct (get_report_data_returns cfg hours w) as (r & w1 & Hd).
  destruct (get_report_data_frame cfg hours w w1 r Hd)
    as (Henv & _ & Hrows & _ & Hout & (errs & Hlog & _ & Hinfo & _) & _).
  destruct r as [data |].
  2:{ eapply Hquiet.
      - exact (report_cycle_no_data cfg hours w w1 Hd).
      - exact Hrows.
      - exact Hout.
      - erewrite new_events_app
          by (cbn [log set_log]; rewrite Hlog, <- app_assoc; reflexivity).
        rewrite count_level_app, Hinfo. reflexivity. }
  destruct (pdf_build (env w)) as [[] | e1] eqn:Hp.
  2:{ destruct (report_cycle_generation_raises cfg hours w w1 data e1 Hd
                  (or_introl Hp)) as (w' & E & L & O & R & _).
      apply (Hquiet w' E R O). rewrite L. reflexivity. }
  destruct (csv_open (env w)) as [[] | e2] eqn:Hc.
  2:{ destruct (report_cycle_generation_raises cfg hours w w1 data e2 Hd
                  (or_intror (conj Hp Hc))) as (w' & E & L & O & R & _).
      apply (Hquiet w' E R O). rewrite L. reflexivity. }
  destruct (smtp_cases (env w)) as [Hs | [e3 Hs]].
  2:{ destruct (report_cycle_transport_raises cfg hours w w1 data e3 Hd Hp Hc Hs)
        as (w' & E & L & O & _).
      apply (Hquiet w' E); [| exact O | rewrite L; reflexivity].
      exact (proj1 (proj2 (proj2 (send_email_report_frame cfg hours
                                    w _ w' E)))). }
  destruct (report_cycle_until_cleanup cfg hours w w1 data Hd Hp Hc Hs)
    as (ws & E & _ & Rs & Ls & Os & _).
  destruct (cleanup_frame (pdf_name hours) (csv_name hours) ws)
    as (w' & errs' & E' & O' & R' & L' & I').
  exists w'. split; [rewrite E; exact E' |].
  split; [rewrite R'; exact Rs |].
  assert (Hmsg : exists msg, outbox w' = (outbox w ++ [msg])%list)
    by (eexists; rewrite O'; exact Os).
  split; [right; exact Hmsg |].
  erewrite new_events_app by (rewrite L', Ls, <- app_assoc; reflexivity).
  rewrite count_level_app, I'.
  split; [cbn; lia |].
  intros _. split; [exact Hmsg | reflexivity].
Qed.

Lemma report_cycle_event_matches_delivery_witness :
  exists w' msg,
    send_email_report Samples.cfg0 6
      (Samples.world_of Samples.env_ok [Samples.row1]) = (Ok tt, w')
    /\ outbox w' = [msg]
    /\ head (new_events (Samples.world_of Samples.env_ok [Samples.row1]) w')
       = Some (report_sent 6).
Proof.
  destruct (report_cycle_event_matches_delivery Samples.cfg0 6
              (Samples.world_of Samples.env_ok [Samples.row1]))
    as (w' & E & _ & _ & _ & H).
  assert (I : count_level INFO
                (new_events (Samples.world_of Samples.env_ok [Samples.row1]) w')
              = 1%nat).
  { pose proof (f_equal snd E) as Hw. cbn [snd] in Hw. subst w'.
    vm_compute. reflexivity. }
  destruct (H I) as [[msg O] Hh].
  exists w', msg. split; [exact E |]. split; [exact O | exact Hh].
Defined.

(** In every world the report cycle leaves the store, the clock and the
    collaborators as they were and changes no file other than its two
    attachment files: a file of another name is neither written nor
    removed. *)
Theorem report_cycle_touches_only_its_files (cfg : Config) (hours : Z)
    (w : World) :
  rows (snd (send_email_report cfg hours w)) = rows w
  /\ clock (snd (send_email_report cfg hours w)) = clock w
  /\ env (snd (send_email_report cfg hours w)) = env w
  /\ forall f, f <> pdf_name hours -> f <> csv_name hours ->
       files (snd (send_email_report cfg hours w)) !! f = files w !! f.
Proof.
  destruct (send_email_report cfg hours w) as [r w'] eqn:E.
  destruct (send_email_report_frame cfg hours w r w' E) as (H1 & H2 & H3 & H4).
  cbn [snd]. auto.
Qed.

Lemma report_cycle_touches_only_its_files_witness :
  files (snd (send_email_report Samples.cfg0 6
                (mk_World Samples.env_ok Samples.noon [] [Samples.row1]
                   {["notes.txt" := CsvFile []]} [] [])))
    !! "notes.txt"
  = Some (CsvFile []).
Proof.
  rewrite (proj2 (proj2 (proj2 (report_cycle_touches_only_its_files
             Samples.cfg0 6
             (mk_World Samples.env_ok Samples.noon [] [Samples.row1]
                {["notes.txt" := CsvFile []]} [] [])))) "notes.txt").
  - reflexivity.
  - intros E. vm_compute in E. discriminate E.
  - intros E. vm_compute in E. discriminate E.
Defined.

(** In every world the check cycle returns normally, touches neither the
    files nor the outbox, and leaves the records of the store in place: it
    appends at most one record, stamped with the store's clock. *)
Theorem check_cycle_appends_at_most_one (w : World) :
  exists w',
    perform_network_check w = (Ok tt, w')
    /\ env w' = env w /\ clock w' = clock w
    /\ files w' = files w /\ outbox w' = outbox w
    /\ (rows w' = rows w
        \/ exists r, rows w' = (rows w ++ [r])%list
                     /\ timestamp r = clock w
                     /\ id r = next_id (rows w)).
Proof.
  unfold perform_network_check, perform_speed_test, get_public_ip,
    check_measurements, save_check_results.
  run_monad. split_oracles w;
    (eexists; split; [reflexivity |]; cbn;
     repeat (split; [reflexivity |]);
     first [left; reflexivity | right; eexists; repeat split; reflexivity]).
Qed.

(** ** Start-up *)

Import Startup.

Lemma List_filter_sublist {A} (p : A -> bool) (l : list A) :
  List.filter p l `sublist_of` l.
Proof.
  induction l as [| x l IH]; [constructor |].
  cbn [List.filter]. destruct (p x); [apply sublist_skip | apply sublist_cons];
    exact IH.
Qed.

Lemma truthy_false (v : option string) :
  truthy v = false <-> v = None \/ v = Some "".
Proof.
  destruct v as [[| c s] |]; cbn; split; intros H;
    try reflexivity; try discriminate; auto;
    destruct H as [H | H]; discriminate.
Qed.

Lemma missing_vars_elem (environ : gmap string string) (v : string) :
  v ∈ missing_vars environ
  <-> v ∈ required_vars
      /\ (environ !! v = None \/ environ !! v = Some "").
Proof.
  unfold missing_vars, os_getenv.
  rewrite list_elem_of_In, List.filter_In, <- list_elem_of_In.
  rewrite negb_true_iff, truthy_false. reflexivity.
Qed.

(** The validation of the environment passes exactly when each of the
    five required variables is set to a non-empty string (a variable set
    to the empty string counts as missing).  Otherwise it raises, and the
    message lists exactly the missing variables, in the fixed order of the
    requirement list, separated by ", ". *)
Theorem required_vars_validation (environ : gmap string string) :
  (check_required_vars environ = Ok tt
   <-> forall v, v ∈ required_vars ->
         exists c s, environ !! v = Some (String c s))
  /\ (forall v, v ∈ missing_vars environ
        <-> v ∈ required_vars
            /\ (environ !! v = None \/ environ !! v = Some ""))
  /\ missing_vars environ `sublist_of` required_vars
  /\ (missing_vars environ <> [] ->
      check_required_vars environ
      = Raise (Exception ("Missing required environment variables: "
                            +:+ join ", " (missing_vars environ)))).
Proof.
  split; [| split; [apply missing_vars_elem | split]].
  - unfold check_required_vars. split.
    + intros H v Hv.
      destruct (missing_vars environ) as [| m ms] eqn:E; [| discriminate].
      destruct (environ !! v) as [[| c s] |] eqn:Ev; [| eauto |];
        exfalso; assert (Hin : v ∈ missing_vars environ)
          by (apply missing_vars_elem; auto);
        rewrite E in Hin; apply elem_of_nil in Hin; exact Hin.
    + intros H. destruct (missing_vars environ) as [| m ms] eqn:E;
        [reflexivity |].
      exfalso. assert (Hin : m ∈ missing_vars environ)
        by (rewrite E; apply list_elem_of_here).
      apply missing_vars_elem in Hin. destruct Hin as [Hreq Hmiss].
      destruct (H m Hreq) as (c & s & Hs).
      destruct Hmiss as [Hm | Hm]; congruence.
  - apply List_filter_sublist.
  - intros Hne. unfold check_required_vars.
    destruct (missing_vars environ); [congruence | reflexivity].
Qed.

Lemma required_vars_validation_witness :
  check_required_vars
    (<["DB_USER" := "monitor"]> (<["SMTP_USER" := ""]> ∅))
  = Raise (Exception
      "Missing required environment variables: DB_PASSWORD, SMTP_USER, SMTP_PASSWORD, EMAIL_RECIPIENT").
Proof.
  refine (proj2 (proj2 (proj2 (required_vars_validation
            (<["DB_USER" := "monitor"]> (<["SMTP_USER" := ""]> ∅))))) _).
  vm_compute. discriminate.
Defined.

Lemma contains_count (c : ascii) (s : string) :
  contains c s = false <-> count_char c s = 0%nat.
Proof.
  induction s as [| a s IH]; cbn; [tauto |].
  destruct (Ascii.eqb a c); cbn; [split; intros; discriminate | exact IH].
Qed.

Lemma split_on_length (c : ascii) (s : string) :
  length (split_on c s) = S (count_char c s).
Proof.
  induction s as [| a s IH]; cbn [split_on count_char]; [reflexivity |].
  destruct (Ascii.eqb a c); cbn [length]; [rewrite IH; reflexivity |].
  destruct (split_on c s); cbn [length] in *; [discriminate | lia].
Qed.

Lemma split_on_whole (c : ascii) (s : string) :
  count_char c s = 0%nat -> split_on c s = [s].
Proof.
  induction s as [| a s IH]; cbn [split_on count_char]; [reflexivity |].
  destruct (Ascii.eqb a c); [discriminate |].
  intros H. rewrite (IH H). reflexivity.
Qed.

Lemma split_on_first (c : ascii) (host rest : string) :
  count_char c host = 0%nat ->
  split_on c (host +:+ String c rest) = host :: split_on c rest.
Proof.
  induction host as [| a host IH]; intros H.
  - change (split_on c (String c rest) = "" :: split_on c rest).
    cbn [split_on]. rewrite Ascii.eqb_refl. reflexivity.
  - change (split_on c (String a (host +:+ String c rest))
            = String a host :: split_on c rest).
    cbn [split_on count_char] in *.
    destruct (Ascii.eqb a c); [discriminate |].
    rewrite (IH H). reflexivity.
Qed.

Lemma count_char_append (c : ascii) (a b : string) :
  count_char c (a +:+ b) = (count_char c a + count_char c b)%nat.
Proof.
  induction a as [| x a IH]; [reflexivity |].
  change (count_char c (String x (a +:+ b))
          = (count_char c (String x a) + count_char c b)%nat).
  cbn [count_char]. rewrite IH. lia.
Qed.

(** The host setting read by the three store operations: without a colon
    it is the host and the port is 5432; with exactly one colon the part
    before is the host and the part after goes through [int], whose
    failure propagates; with two or more colons (an IPv6 literal, say)
    unpacking fails, whatever the parts are. *)
Theorem db_host_parsing (py_int : string -> result Z) (s : string) :
  (count_char colon s = 0%nat -> parse_db_host py_int s = Ok (s, 5432%Z))
  /\ (forall host port,
        count_char colon host = 0%nat -> count_char colon port = 0%nat ->
        s = host +:+ String colon port ->
        parse_db_host py_int s
        = match py_int port with
          | Ok p => Ok (host, p)
          | Raise e => Raise e
          end)
  /\ ((2 <= count_char colon s)%nat ->
      parse_db_host py_int s
      = Raise (Exception "too many values to unpack (expected 2)")).
Proof.
  unfold parse_db_host. split; [| split].
  - intros H. rewrite (proj2 (contains_count colon s) H). reflexivity.
  - intros host port Hh Hp ->.
    destruct (contains colon (host +:+ String colon port)) eqn:E.
    + rewrite (split_on_first colon host port Hh), (split_on_whole colon port Hp).
      reflexivity.
    + apply contains_count in E. rewrite count_char_append in E.
      cbn [count_char] in E. rewrite Ascii.eqb_refl in E. lia.
  - intros H. destruct (contains colon s) eqn:E.
    + pose proof (split_on_length colon s) as L.
      destruct (split_on colon s) as [| a [| b [| c l]]]; cbn [length] in L;
        try reflexivity; lia.
    + apply contains_count in E. lia.
Qed.

Lemma db_host_parsing_witness :
  parse_db_host (fun _ => Ok 5433%Z) "localhost" = Ok ("localhost", 5432%Z)
  /\ parse_db_host (fun _ => Ok 5433%Z) "db.internal:5433"
     = Ok ("db.internal", 5433%Z)
  /\ parse_db_host (fun _ => Ok 5433%Z) "::1"
     = Raise (Exception "too many values to unpack (expected 2)").
Proof.
  split; [| split].
  - apply (db_host_parsing (fun _ => Ok 5433%Z) "localhost"). reflexivity.
  - apply (proj1 (proj2 (db_host_parsing (fun _ => Ok 5433%Z)
                           "db.internal:5433")) "db.internal" "5433");
      reflexivity.
  - apply (db_host_parsing (fun _ => Ok 5433%Z) "::1"). vm_compute. lia.
Defined.

Ltac init_db_frame Hfresh :=
  (do 2 eexists); (split; [reflexivity |]); cbn;
  (split; [set_solver |]); (split; [set_solver |]);
  (split; [set_solver |]); (split; [set_solver |]);
  (split; [let Hf := fresh in
           intros Hf; destruct (Hfresh Hf); set_solver |]).

Ltac init_db_fails Hfresh evs :=
  init_db_frame Hfresh;
  (split;
   [split;
    [discriminate
    | let Hdb := fresh "Hdb" in
      intros (? & ? & ? & ? & ? & Hdb & ? & ? & ?);
      first [congruence | destruct Hdb; [contradiction | congruence]]] |]);
  (split; [reflexivity |]); exists evs;
  split; [rewrite <- ?app_assoc; reflexivity | reflexivity].

(** What [init_db] does on every path. *)
Lemma init_db_summary (py_int : string -> result Z) (senv : ServerEnv)
    (H N : string) (sv : Server) :
  exists r sv',
    init_db py_int senv H N sv = (r, sv')
    /\ databases sv ⊆ databases sv'
    /\ databases sv' ⊆ {[N]} ∪ databases sv
    /\ db_tables sv ⊆ db_tables sv'
    /\ db_tables sv' ⊆ {[(N, network_checks)]} ∪ db_tables sv
    /\ (fresh_handles sv -> open_conns sv' = open_conns sv)
    /\ (r = Ok tt <-> init_can_succeed py_int senv H N (databases sv))
    /\ match r with
       | Ok _ =>
           N ∈ databases sv'
           /\ (N, network_checks) ∈ db_tables sv'
           /\ server_log sv'
              = (server_log sv
                 ++ (if decide (N ∈ databases sv) then []
                     else [LogEvent INFO
                             ("Database " +:+ N +:+ " created successfully")])
                 ++ [LogEvent INFO "Database initialized successfully"])%list
       | Raise e =>
           db_tables sv' = db_tables sv
           /\ exists evs,
                server_log sv'
                = (server_log sv ++ evs
                   ++ [LogEvent ERROR
                         ("Database initialization error: " +:+ exn_str e)])%list
                /\ count_level ERROR evs = 0%nat
       end.
Proof.
  assert (Hfresh : fresh_handles sv ->
            (next_conn sv ∉ open_conns sv)
            /\ (S (next_conn sv) ∉ open_conns sv)).
  { intros Hf. split; intros Hin; apply Hf in Hin; lia. }
  unfold init_can_succeed.
  unfold init_db, init_db_body, ibind, ilift, connect, cursor, close_conn,
    ilog, iret.
  destruct (parse_db_host py_int H) as [[host port] | e0] eqn:E0; cbn;
    [| init_db_fails Hfresh (@nil log_event)].
  destruct (pg_connect senv host port "postgres") as [[] | e1] eqn:E1; cbn;
    [| init_db_fails Hfresh (@nil log_event)].
  destruct (pg_select senv) as [[] | e2] eqn:E2; cbn;
    [| init_db_fails Hfresh (@nil log_event)].
  destruct (decide (N ∈ databases sv)) as [Hin | Hnin].
  - rewrite bool_decide_eq_true_2 by exact Hin. cbn.
    destruct (pg_connect senv host port N) as [[] | e4] eqn:E4; cbn;
      [| init_db_fails Hfresh (@nil log_event)].
    destruct (pg_create_table senv) as [[] | e5] eqn:E5; cbn;
      [| init_db_fails Hfresh (@nil log_event)].
    destruct (pg_commit senv) as [[] | e6] eqn:E6; cbn;
      [| init_db_fails Hfresh (@nil log_event)].
    init_db_frame Hfresh.
    split; [split; [intros _; exists host, port; auto 10 | reflexivity] |].
    split; [set_solver |]. split; [set_solver |]. reflexivity.
  - rewrite bool_decide_eq_false_2 by exact Hnin. cbn.
    destruct (pg_create_database senv) as [[] | e3] eqn:E3; cbn;
      [| init_db_fails Hfresh (@nil log_event)].
    destruct (pg_connect senv host port N) as [[] | e4] eqn:E4; cbn;
      [| init_db_fails Hfresh
           [LogEvent INFO ("Database " +:+ N +:+ " created successfully")]].
    destruct (pg_create_table senv) as [[] | e5] eqn:E5; cbn;
      [| init_db_fails Hfresh
           [LogEvent INFO ("Database " +:+ N +:+ " created successfully")]].
    destruct (pg_commit senv) as [[] | e6] eqn:E6; cbn;
      [| init_db_fails Hfresh
           [LogEvent INFO ("Database " +:+ N +:+ " created successfully")]].
    init_db_frame Hfresh.
    split; [split; [intros _; exists host, port; auto 10 | reflexivity] |].
    split; [set_solver |]. split; [set_solver |].
    rewrite <- app_assoc. reflexivity.
Qed.

(** When [init_db] returns normally the database and the table exist
    afterwards, every database and table that was there before is still
    there, and nothing but this database and this table has been added.
    The log takes "created" only if the database was not there, then
    "initialized". *)
Theorem init_db_establishes_schema (py_int : string -> result Z)
    (senv : ServerEnv) (H N : string) (sv sv' : Server) :
  init_db py_int senv H N sv = (Ok tt, sv') ->
  N ∈ databases sv'
  /\ (N, network_checks) ∈ db_tables sv'
  /\ databases sv ⊆ databases sv'
  /\ databases sv' ⊆ {[N]} ∪ databases sv
  /\ db_tables sv ⊆ db_tables sv'
  /\ db_tables sv' ⊆ {[(N, network_checks)]} ∪ db_tables sv
  /\ server_log sv'
     = (server_log sv
        ++ (if decide (N ∈ databases sv) then []
            else [LogEvent INFO ("Database " +:+ N +:+ " created successfully")])
        ++ [LogEvent INFO "Database initialized successfully"])%list.
Proof.
  intros E.
  destruct (init_db_summary py_int senv H N sv)
    as (r & sv0 & E0 & D1 & D2 & T1 & T2 & _ & _ & Hr).
  rewrite E in E0. injection E0 as <- <-.
  destruct Hr as (Hd & Ht & Hl). auto 10.
Qed.

Lemma init_db_establishes_schema_witness :
  exists sv',
    init_db ServerFixtures.int_5433 ServerFixtures.senv_ok "db:5433"
      "network_monitor" ServerFixtures.fresh_server = (Ok tt, sv')
    /\ "network_monitor" ∈ databases sv'
    /\ ("network_monitor", network_checks) ∈ db_tables sv'
    /\ "postgres" ∈ databases sv'
    /\ map lv (server_log sv') = [INFO; INFO].
Proof.
  destruct (init_db ServerFixtures.int_5433 ServerFixtures.senv_ok "db:5433"
              "network_monitor" ServerFixtures.fresh_server)
    as [[[] | e] sv'] eqn:E; [| vm_compute in E; discriminate].
  destruct (init_db_establishes_schema _ _ _ _ _ _ E)
    as (Hd & Ht & Hs & _ & _ & _ & Hl).
  exists sv'. split; [reflexivity |]. split; [exact Hd |].
  split; [exact Ht |]. split.
  - apply Hs. unfold ServerFixtures.fresh_server. cbn [databases].
    apply elem_of_singleton. reflexivity.
  - rewrite Hl. rewrite decide_False; [reflexivity |].
    unfold ServerFixtures.fresh_server. cbn [databases].
    intros Hin. apply elem_of_singleton in Hin. discriminate.
Defined.

(** A failure of [init_db] is fatal: the exception reaches the caller
    after exactly one error event that names it.  No table has been
    added and no database has been lost. *)
Theorem init_db_failure_propagates (py_int : string -> result Z)
    (senv : ServerEnv) (H N : string) (sv sv' : Server) (e : exn) :
  init_db py_int senv H N sv = (Raise e, sv') ->
  db_tables sv' = db_tables sv
  /\ databases sv ⊆ databases sv'
  /\ exists evs,
       server_log sv'
       = (server_log sv ++ evs
          ++ [LogEvent ERROR ("Database initialization error: " +:+ exn_str e)])%list
       /\ count_level ERROR evs = 0%nat.
Proof.
  intros E.
  destruct (init_db_summary py_int senv H N sv)
    as (r & sv0 & E0 & D1 & D2 & _ & _ & _ & _ & Hr).
  rewrite E in E0. injection E0 as <- <-.
  destruct Hr as (Ht & Hl). auto.
Qed.

Lemma init_db_failure_propagates_witness :
  exists sv',
    init_db ServerFixtures.int_5433 ServerFixtures.senv_commit_fails "db:5433"
      "network_monitor" ServerFixtures.fresh_server
    = (Raise (Exception "commit failed"), sv')
    /\ db_tables sv' = ∅
    /\ count_level ERROR (server_log sv') = 1%nat.
Proof.
  destruct (init_db ServerFixtures.int_5433 ServerFixtures.senv_commit_fails
              "db:5433" "network_monitor" ServerFixtures.fresh_server)
    as [[[] | e] sv'] eqn:E; [vm_compute in E; discriminate |].
  assert (He : e = Exception "commit failed")
    by (vm_compute in E; congruence).
  subst e.
  destruct (init_db_failure_propagates _ _ _ _ _ _ _ E)
    as (Ht & _ & evs & Hl & Hc).
  exists sv'. split; [reflexivity |]. split; [exact Ht |].
  rewrite Hl. cbn [server_log ServerFixtures.fresh_server app].
  rewrite count_level_app, Hc. reflexivity.
Defined.

(** [init_db] leaves no connection open: on every path, normal or not,
    the connections open afterwards are those that were open before. *)
Theorem init_db_closes_connections (py_int : string -> result Z)
    (senv : ServerEnv) (H N : string) (sv : Server) :
  fresh_handles sv ->
  open_conns (snd (init_db py_int senv H N sv)) = open_conns sv.
Proof.
  intros Hf.
  destruct (init_db_summary py_int senv H N sv)
    as (r & sv0 & E0 & _ & _ & _ & _ & Hc & _).
  rewrite E0. exact (Hc Hf).
Qed.

Lemma init_db_closes_connections_witness :
  open_conns (snd (init_db ServerFixtures.int_5433
                     ServerFixtures.senv_commit_fails "db:5433"
                     "network_monitor" ServerFixtures.fresh_server))
  = ∅.
Proof.
  apply (init_db_closes_connections ServerFixtures.int_5433
           ServerFixtures.senv_commit_fails "db:5433" "network_monitor"
           ServerFixtures.fresh_server).
  intros c Hc. apply elem_of_empty in Hc. destruct Hc.
Defined.

(** [init_db] is safe to run on every start: after a run that returned
    normally, a second run against the same server returns normally too,
    changes neither the databases nor the tables, and logs only
    "Database initialized successfully". *)
Theorem init_db_idempotent (py_int : string -> result Z) (senv : ServerEnv)
    (H N : string) (sv sv1 : Server) :
  init_db py_int senv H N sv = (Ok tt, sv1) ->
  exists sv2,
    init_db py_int senv H N sv1 = (Ok tt, sv2)
    /\ databases sv2 = databases sv1
    /\ db_tables sv2 = db_tables sv1
    /\ server_log sv2
       = (server_log sv1
          ++ [LogEvent INFO "Database initialized successfully"])%list.
Proof.
  intros E.
  destruct (init_db_summary py_int senv H N sv)
    as (r & sv0 & E0 & _ & _ & _ & _ & _ & Hok & Hr).
  rewrite E in E0. injection E0 as <- <-.
  destruct Hr as (Hd & Ht & _).
  destruct (proj1 Hok eq_refl)
    as (host & port & Hp & Hc1 & Hs & _ & Hc2 & Hct & Hcm).
  destruct (init_db_summary py_int senv H N sv1)
    as (r2 & sv2 & E2 & D1 & D2 & T1 & T2 & _ & Hok2 & Hr2).
  assert (Hr2ok : r2 = Ok tt).
  { apply Hok2. exists host, port. auto 10. }
  subst r2. destruct Hr2 as (_ & _ & Hl).
  exists sv2. split; [exact E2 |].
  split; [set_solver |]. split; [set_solver |].
  rewrite Hl, decide_True by exact Hd. reflexivity.
Qed.

Lemma init_db_idempotent_witness :
  exists sv1 sv2,
    init_db ServerFixtures.int_5433 ServerFixtures.senv_ok "localhost"
      "network_monitor" ServerFixtures.fresh_server = (Ok tt, sv1)
    /\ init_db ServerFixtures.int_5433 ServerFixtures.senv_ok "localhost"
         "network_monitor" sv1 = (Ok tt, sv2)
    /\ databases sv2 = databases sv1
    /\ db_tables sv2 = db_tables sv1.
Proof.
  destruct (init_db ServerFixtures.int_5433 ServerFixtures.senv_ok "localhost"
              "network_monitor" ServerFixtures.fresh_server)
    as [[[] | e] sv1] eqn:E; [| vm_compute in E; discriminate].
  destruct (init_db_idempotent _ _ _ _ _ _ E) as (sv2 & E2 & D & T & _).
  exists sv1, sv2. auto.
Defined.
